(** * Life-organizer bot: intent resolution, item store adapter and session state

    A shallow embedding of the parts of [bot.py], [notion_integration.py],
    [ai_categorizer.py] and [voice_transcriber.py] that decide how a message
    is routed, which items the store adapter returns, and how the XP ledger
    and the per-user session maps evolve.

    Conventions of the embedding:
    - A Python [str] is modelled by its UTF-8 encoding, a [string] of
      bytes; [s[:n]] and [len(s)] count code points ([take], [py_len]), and
      a substring test on the bytes is one on the code points (UTF-8 is
      self-synchronising). [str.lower] ([py_lower]) maps ASCII letters
      only; [str.upper] ([py_upper]) maps ASCII letters and the characters
      whose upper case is ASCII.
    - A Notion page is a record holding its id and its property bag
      (a [gmap string prop_val]); JSON shapes the code reads through
      [.get(..., {})] chains are reflected in [prop_val].
    - Every remote call (Notion, Groq) is an input of the function: the
      outcome the remote side produced, so that each function is a total,
      executable Rocq function of its inputs.
    - Per-user dictionaries ([pending_deletes], [_focus_sessions],
      [_focus_pending_tasks], [_user_xp]) are [gmap Z _].
    - Side effects visible to the user or the store are recorded as a list
      of [effect]s, in the order the code performs them. *)

From stdpp Require Import base gmap strings list sorting pretty.
From Stdlib Require Import ZArith Lia Ascii String.

Open Scope string_scope.
Open Scope Z_scope.

(* ------------------------------------------------------------------ *)
(** ** Python string helpers *)

Module PyStr.

Definition ascii_lower (c : ascii) : ascii :=
  let n := nat_of_ascii c in
  if (65 <=? n)%nat && (n <=? 90)%nat then ascii_of_nat (n + 32) else c.

Definition ascii_upper (c : ascii) : ascii :=
  let n := nat_of_ascii c in
  if (97 <=? n)%nat && (n <=? 122)%nat then ascii_of_nat (n - 32) else c.

Fixpoint map_str (f : ascii -> ascii) (s : string) : string :=
  match s with
  | EmptyString => EmptyString
  | String c r => String (f c) (map_str f r)
  end.

(** [s.lower()] on ASCII letters (the only other character whose lower
    case is ASCII is the Kelvin sign) *)
Definition py_lower (s : string) : string := map_str ascii_lower s.

(** [s.upper()], read on the UTF-8 bytes. Besides the ASCII letters, the
    characters whose upper case is ASCII are mapped as Python maps them:
    U+00DF to "SS", U+0131 to "I", U+017F to "S" and the ligatures
    U+FB00..U+FB06 to "FF", "FI", "FL", "FFI", "FFL", "ST", "ST". Every
    other character is left as it is, where Python maps a cased non-ASCII
    letter to another non-ASCII character: the two results are then both
    outside every list of ASCII words and of uncased (e.g. Arabic) words,
    and membership in such a list is how the code uses [upper()]. The lead
    bytes C3, C4, C5 and EF never continue a code point, so a match is
    always at a character boundary. *)
Fixpoint py_upper (s : string) : string :=
  match s with
  | EmptyString => EmptyString
  | String c1 EmptyString => String (ascii_upper c1) EmptyString
  | String c1 ((String c2 r2) as r1) =>
      match nat_of_ascii c1, nat_of_ascii c2 with
      | 195, 159 => String "S" (String "S" (py_upper r2))        (* U+00DF *)
      | 196, 177 => String "I" (py_upper r2)                     (* U+0131 *)
      | 197, 191 => String "S" (py_upper r2)                     (* U+017F *)
      | 239, 172 =>
          match r2 with
          | String c3 r3 =>
              match nat_of_ascii c3 with
              | 128 => "FF" ++ py_upper r3
              | 129 => "FI" ++ py_upper r3
              | 130 => "FL" ++ py_upper r3
              | 131 => "FFI" ++ py_upper r3
              | 132 => "FFL" ++ py_upper r3
              | 133 => "ST" ++ py_upper r3
              | 134 => "ST" ++ py_upper r3
              | _ => String c1 (py_upper r1)
              end
          | EmptyString => String c1 (py_upper r1)
          end
      | _, _ => String (ascii_upper c1) (py_upper r1)
      end%nat
  end.

(** [s.startswith(p)] *)
Fixpoint startswith (s p : string) : bool :=
  match p, s with
  | EmptyString, _ => true
  | String c p', String d s' => if ascii_dec c d then startswith s' p' else false
  | String _ _, EmptyString => false
  end.

(** [p in s] for strings: substring test *)
Fixpoint contains (s p : string) : bool :=
  match s with
  | EmptyString => startswith EmptyString p
  | String _ s' => startswith s p || contains s' p
  end.

(** [x in [w1; w2; ...]] for a list of strings *)
Definition in_list (x : string) (ws : list string) : bool :=
  existsb (fun w => String.eqb x w) ws.

(** [c.isspace()] on ASCII characters: tab, LF, VT, FF, CR, the separators
    1C..1F and space (the non-ASCII whitespace of Python is not listed). *)
Definition is_space (c : ascii) : bool :=
  match nat_of_ascii c with
  | 32 | 9 | 10 | 11 | 12 | 13 | 28 | 29 | 30 | 31 => true
  | _ => false
  end%nat.

(** [s.split()] with no separator: runs of whitespace separate words,
    no empty words. [cur] is the word being read, reversed. *)
Fixpoint split_ws_aux (s : string) (cur : list ascii) : list string :=
  match s with
  | EmptyString =>
      match cur with [] => [] | _ => [string_of_list_ascii (rev cur)] end
  | String c r =>
      if is_space c then
        match cur with
        | [] => split_ws_aux r []
        | _ => string_of_list_ascii (rev cur) :: split_ws_aux r []
        end
      else split_ws_aux r (c :: cur)
  end.

Definition split_ws (s : string) : list string := split_ws_aux s [].

(** [s.strip()] on ASCII whitespace *)
Fixpoint lstrip (s : string) : string :=
  match s with
  | String c r => if is_space c then lstrip r else s
  | EmptyString => EmptyString
  end.

Definition strip (s : string) : string :=
  string_of_list_ascii (rev (list_ascii_of_string
    (lstrip (string_of_list_ascii (rev (list_ascii_of_string (lstrip s))))))).

(** A byte that continues a code point in UTF-8 ([10xxxxxx]). *)
Definition is_cont (c : ascii) : bool :=
  let n := nat_of_ascii c in (128 <=? n)%nat && (n <? 192)%nat.

(** [len(s)]: the number of code points *)
Fixpoint py_len (s : string) : nat :=
  match s with
  | EmptyString => O
  | String c r => if is_cont c then py_len r else S (py_len r)
  end.

(** [s[:n]] for [n >= 0]: the first [n] code points, with the bytes that
    continue the last of them *)
Fixpoint take (n : nat) (s : string) : string :=
  match s with
  | EmptyString => EmptyString
  | String c r =>
      if is_cont c then String c (take n r)
      else match n with
           | O => EmptyString
           | S n' => String c (take n' r)
           end
  end.

(** All characters ASCII. *)
Definition ascii_str (s : string) : bool :=
  forallb (fun c => nat_of_ascii c <? 128)%nat (list_ascii_of_string s).

End PyStr.

Import PyStr.

(* ------------------------------------------------------------------ *)
(** ** Notion pages as the store returns them *)

(** The [start] of a Notion date value: a date-only string ["YYYY-MM-DD"]
    (as a day number), a date-time string (as seconds since the epoch,
    naive, as [.replace(tzinfo=None)] leaves it) or a string that does
    not parse. *)
Inductive date_start :=
  | DOnly (day : Z)
  | DTime (secs : Z)
  | DBad.

(** A rich-text segment of a title: a ["text"] segment, given by its
    [text.content] (which is also its [plain_text]), or a mention or
    equation segment, which has a [plain_text] but no ["text"] key. *)
Inductive title_seg :=
  | TText (content : string)
  | TOther (plain_text : string).

(** [seg.get("text", {}).get("content", dflt)] *)
Definition seg_content (dflt : string) (sg : title_seg) : string :=
  match sg with TText c => c | TOther _ => dflt end.

(** [seg["plain_text"]] *)
Definition seg_plain (sg : title_seg) : string :=
  match sg with TText c => c | TOther p => p end.

(** A property value of the bag [page["properties"]]:
    - [PTitle segs]: a title property with its rich-text segments;
    - [PSelect sel]: a select property, [sel = None] for ["select": null];
    - [PDate d]: a date property, [d = None] for ["date": null];
    - [POther]: any other property type (no ["select"], ["date"] key). *)
Inductive prop_val :=
  | PTitle (segs : list title_seg)
  | PSelect (sel : option string)
  | PDate (d : option date_start)
  | POther.

Record page := mk_page {
  page_id : string;
  props : gmap string prop_val
}.

(** [props.get("Status", {}).get("select", {})], then
    [status.get("name", "No Status") if status else "No Status"] *)
Definition status_name (p : page) : string :=
  match props p !! "Status" with
  | Some (PSelect (Some n)) => n
  | _ => "No Status"
  end.

(** [props["Name"]["title"][0].get("text", {}).get("content", dflt)] when the
    title list is non-empty, else the given default *)
Definition title_of (dflt : string) (p : page) : string :=
  match props p !! "Name" with
  | Some (PTitle (sg :: _)) => seg_content dflt sg
  | _ => dflt
  end.

(** [item["properties"].get("Name", {}).get("title", [{}])[0].get("text", {}).get("content", "Untitled")]:
    [None] when the title list is empty ([IndexError]). *)
Definition title_strict (p : page) : option string :=
  match props p !! "Name" with
  | Some (PTitle []) => None
  | Some (PTitle (sg :: _)) => Some (seg_content "Untitled" sg)
  | _ => Some "Untitled"
  end.

(* ------------------------------------------------------------------ *)
(** ** [get_active_items] (notion_integration.py) *)

Definition inactive_statuses : list string := ["done"; "completed"; "archived"].

(** The in-memory filter of [get_active_items]. *)
Definition is_active_page (p : page) : bool :=
  negb (in_list (py_lower (status_name p)) inactive_statuses).

(** [resp] is the outcome of the unfiltered [databases/{id}/query] request:
    [None] when it raised (the function then returns [[]]), else the
    [results] list. *)
Definition get_active_items (resp : option (list page)) : list page :=
  match resp with
  | None => []
  | Some items => List.filter is_active_page items
  end.

(* ------------------------------------------------------------------ *)
(** ** Gamification: [add_xp] (bot.py) *)

(** One entry of [_user_xp]; dates are day numbers
    ([date.isoformat()] round-trips through [fromisoformat]). *)
Record xp_rec := mk_xp {
  xp : Z;
  last_action : option Z;
  streak : Z
}.

(** The [defaultdict] factory: [{"xp": 0, "last_action": None, "streak": 0}] *)
Definition xp_default : xp_rec := mk_xp 0 None 0.

Definition XP_TASK_ADDED : Z := 5.
Definition XP_TASK_COMPLETED : Z := 15.
Definition XP_FOCUS_COMPLETED : Z := 25.

(** The record update of [add_xp] for the user's entry, [today] being
    [datetime.now().date()]. *)
Definition add_xp_rec (today amount : Z) (u : xp_rec) : xp_rec :=
  let s :=
    match last_action u with
    | Some last_date =>
        let days_diff := today - last_date in
        if days_diff =? 1 then streak u + 1
        else if days_diff >? 1 then 1
        else streak u
    | None => 1
    end in
  let x := xp u + amount in
  let x := if (s >? 0) && (s mod 7 =? 0) then x + 50 else x in
  mk_xp x (Some today) s.

(** [add_xp(user_id, amount)] on the whole [_user_xp] map: returns the new
    map and the (aliased) user entry. *)
Definition add_xp (st : gmap Z xp_rec) (user_id today amount : Z)
    : gmap Z xp_rec * xp_rec :=
  let u := default xp_default (st !! user_id) in
  let u' := add_xp_rec today amount u in
  (<[user_id := u']> st, u').

(* ------------------------------------------------------------------ *)
(** ** [search_items] (notion_integration.py) *)

(** The two kinds of [databases/{id}/query] filters [search_items] sends. *)
Inductive notion_filter :=
  | FTitleContains (q : string)   (* {"property": "Name", "title": {"contains": q}} *)
  | FStatusEquals (s : string).   (* {"property": "Status", "select": {"equals": s}} *)

(** Full plain text of a page's title (all segments). *)
Definition title_text (p : page) : string :=
  match props p !! "Name" with
  | Some (PTitle segs) => String.concat "" (map seg_plain segs)
  | _ => ""
  end.

(** A Notion database served from a list of pages: [contains] on a title
    is a case-insensitive substring test, [equals] on a select is exact.
    Requests made against it always succeed. *)
Definition notion_query (db : list page) (f : notion_filter) : option (list page) :=
  Some (match f with
        | FTitleContains q => List.filter (fun p => contains (py_lower (title_text p)) (py_lower q)) db
        | FStatusEquals s =>
            List.filter (fun p => match props p !! "Status" with
                             | Some (PSelect (Some n)) => String.eqb n s
                             | _ => false
                             end) db
        end).

Definition skip_words : list string :=
  ["the"; "a"; "an"; "my"; "to"; "change"; "update"; "set"; "make"; "mark"; "delete"; "remove"].

(** [len(w) > 2] *)
Definition long_word (w : string) : bool := (3 <=? py_len w)%nat.

(** Strategy 2's word list:
    [[w for w in query.lower().split() if w not in skip_words and len(w) > 2]] *)
Definition significant_words (q : string) : list string :=
  List.filter (fun w => negb (in_list w skip_words) && long_word w) (split_ws (py_lower q)).

(** Strategy 3's per-item title: [title[0].get("text", {}).get("content", "").lower()],
    [""] when the item has no [Name] title. *)
Definition first_title_lower (p : page) : string := py_lower (title_of "" p).

(** Strategy 3's test: [any(word in title_text for word in query_lower.split() if len(word) > 2)] *)
Definition fuzzy_match (q : string) (p : page) : bool :=
  existsb (fun w => long_word w && contains (first_title_lower p) w) (split_ws (py_lower q)).

Section Search.
Variable query : notion_filter -> option (list page).

(** The body of the [try]: [None] when a request raised. *)
Definition search_tiers (q : string) : option (list page) :=
  match query (FTitleContains q) with
  | None => None
  | Some ((_ :: _) as items) => Some items
  | Some [] =>
      let tier2 :=
        match significant_words q with
        | first_word :: _ =>
            match query (FTitleContains first_word) with
            | None => None
            | Some r => Some r
            end
        | [] => Some []
        end in
      match tier2 with
      | None => None
      | Some ((_ :: _) as r) => Some r
      | Some [] =>
          match query (FStatusEquals "Active") with
          | None => None
          | Some all_items => Some (List.filter (fuzzy_match q) all_items)
          end
      end
  end.

Definition search_items (q : string) : list page := default [] (search_tiers q).

End Search.

(* ------------------------------------------------------------------ *)
(** ** [get_upcoming_deadlines] (notion_integration.py) *)

(** The first of ["Date"], ["Due Date"], ["Deadline"] present in the bag. *)
Definition date_prop (p : page) : option prop_val :=
  match props p !! "Date" with
  | Some v => Some v
  | None =>
      match props p !! "Due Date" with
      | Some v => Some v
      | None => props p !! "Deadline"
      end
  end.

(** [if not date_prop or not date_prop.get("date"): continue] *)
Definition date_value (p : page) : option date_start :=
  match date_prop p with
  | Some (PDate (Some d)) => Some d
  | _ => None
  end.

(** The countdown band of [formatted_time]. *)
Inductive band :=
  | OverdueHours (h : Z)
  | HoursLeft (h : Z)
  | OverdueDays (d : Z)
  | DueToday
  | DaysLeft (d : Z).

Record deadline := mk_deadline {
  dl_id : string;
  dl_title : string;
  dl_date : date_start;
  days_left : Z;
  formatted_time : band
}.

Definition SECS_PER_DAY : Z := 86400.

(** [days_left] and [formatted_time] for one date, [now] being
    [datetime.now()] in seconds; [None] when the date does not parse
    (the [except] branch: [continue]). [timedelta.days] is a floor
    division, [int(x / 3600)] truncates. *)
Definition countdown (now : Z) (d : date_start) : option (Z * band) :=
  match d with
  | DOnly day =>
      let dl := day - now / SECS_PER_DAY in
      Some (dl, if dl <? 0 then OverdueDays (Z.abs dl)
                else if dl =? 0 then DueToday else DaysLeft dl)
  | DTime secs =>
      let diff := secs - now in
      let dl := diff / SECS_PER_DAY in
      let hours := Z.quot diff 3600 in
      Some (dl, if diff <? 0 then OverdueHours (Z.abs hours)
                else if hours <? 24 then HoursLeft hours else DaysLeft dl)
  | DBad => None
  end.

(** The deadline entry appended for one active item, if any. An empty
    title list makes the title lookup raise [IndexError] inside the
    per-item [try]: the item is skipped. *)
Definition deadline_of (now : Z) (p : page) : option deadline :=
  match date_value p with
  | None => None
  | Some d =>
      match countdown now d with
      | None => None
      | Some (dl, ft) =>
          if -1 <=? dl then
            match title_strict p with
            | Some title => Some (mk_deadline (page_id p) title d dl ft)
            | None => None
            end
          else None
      end
  end.

(** [deadlines.sort(key=lambda x: x["days_left"])]: a stable insertion
    sort. [sort_by_days (x :: r)] inserts [x], which comes before every
    element of [r] in the input, before every element of the sorted [r]
    with an equal or larger key. *)
Fixpoint insert_by_days (x : deadline) (l : list deadline) : list deadline :=
  match l with
  | [] => [x]
  | y :: r => if days_left y <? days_left x then y :: insert_by_days x r else x :: l
  end.

Fixpoint sort_by_days (l : list deadline) : list deadline :=
  match l with
  | [] => []
  | x :: r => insert_by_days x (sort_by_days r)
  end.

(** Python's [l[:k]] for any integer [k]. *)
Definition py_slice_to {A} (l : list A) (k : Z) : list A :=
  if 0 <=? k then firstn (Z.to_nat k) l
  else firstn (List.length l - Z.to_nat (- k))%nat l.

(** The [deadlines] list after the loop and the sort. *)
Definition upcoming_sorted (resp : option (list page)) (now : Z) : list deadline :=
  let items := get_active_items resp in
  let deadlines := omap (deadline_of now) items in
  sort_by_days deadlines.

Definition get_upcoming_deadlines (resp : option (list page)) (now limit : Z)
    : list deadline :=
  py_slice_to (upcoming_sorted resp now) limit.

(* ------------------------------------------------------------------ *)
(** ** Classification adapter (ai_categorizer.py) *)

(** What [json.loads(content)] of a categorization reply gave: a dict
    with the fields the callers read ([None] = key absent), or some other
    JSON value (a list, a number, ...). *)
Inductive cat_value :=
  | CatDict (category type_ priority title summary suggested_action : option string)
  | CatNotDict.

(** The HTTP exchange with the provider, as seen by the adapter. *)
Inductive groq_body :=
  | BodyNotJson                          (* [response.json()] raises *)
  | BodyNoContent                        (* [data["choices"][0]["message"]["content"]] raises *)
  | BodyContent (parsed : option cat_value). (* [None]: [json.loads(content)] raises *)

Inductive groq_outcome :=
  | GRaise                               (* timeout, connection error, ... *)
  | GHttp (status : Z) (body : groq_body).

(** The fallback dict of [categorize_message]. *)
Definition fallback_cat (message_text action : string) : cat_value :=
  CatDict (Some "Ideas") (Some "Idea") (Some "Low")
          (Some (take 50 message_text)) (Some message_text) (Some action).

(** [categorize_message(message_text, has_image, has_file)].
    [key_set] is [bool(GROQ_API_KEY)]; [raise_for_status] raises on every
    non-2xx status. The attachment notes only change the prompt sent. *)
Definition categorize_message (key_set : bool) (message_text : string)
    (has_image has_file : bool) (o : groq_outcome) : cat_value :=
  if negb key_set then
    fallback_cat message_text "GROQ_API_KEY not configured - review manually"
  else
    match o with
    | GRaise => fallback_cat message_text "Review and categorize manually"
    | GHttp status body =>
        if (200 <=? status) && (status <? 300) then
          match body with
          | BodyContent (Some v) => v
          | _ => fallback_cat message_text "Review and categorize manually"
          end
        else fallback_cat message_text "Review and categorize manually"
    end.

(** The provider's reply to the [ai_match_task] prompt: [MHttp status c]
    with [c = None] when the content is not JSON, [c = Some tn] with
    [tn = result.get("task_number")] (an integer, [None] if absent). *)
Inductive match_outcome :=
  | MRaise
  | MHttp (status : Z) (content : option (option Z)).

(** [props.get(k, {}).get("select", {}).get("name", ...)] raises
    ([None.get]) exactly when [k] is a select property set to [null]. *)
Definition select_null (p : page) (k : string) : bool :=
  match props p !! k with
  | Some (PSelect None) => true
  | _ => false
  end.

(** The task list of the [ai_match_task] prompt reads the [Category] and
    [Priority] selects of every task; the title is read with defaults
    only. *)
Definition prompt_raises (p : page) : bool :=
  select_null p "Category" || select_null p "Priority".

(** [ai_match_task(user_request, tasks)]: [None] when it raised (the prompt
    is built before the [try]), else [Some] of its result. [task_map]
    maps [1..len(tasks)] to the tasks; [task_num > 0 and task_num in
    task_map] selects. *)
Definition ai_match_task (key_set : bool) (tasks : list page) (o : match_outcome)
    : option (option page) :=
  if negb key_set then Some None else
  match tasks with
  | [] => Some None
  | _ =>
      if existsb prompt_raises tasks then None else
      Some (match o with
            | MRaise => None
            | MHttp status c =>
                if negb (status =? 200) then None else
                match c with
                | None => None
                | Some tn =>
                    let task_num := default 0 tn in
                    if (0 <? task_num) && (task_num <=? Z.of_nat (List.length tasks))
                    then tasks !! Z.to_nat (task_num - 1)
                    else None
                end
            end)
  end.

(* ------------------------------------------------------------------ *)
(** ** Effects, replies and the process state *)

(** Replies sent to the user (the text is abbreviated to its kind). *)
Inductive reply :=
  | RNoActiveItems | RNoCategoryItems (c : string) | RItemList (n : nat)
  | RNoItemsToManage | RNoMatch (target : string)
  | RConfirmDelete (title : string) | RMarkedDone (title : string)
  | RUpdateFailed | RPriorityUpdated (title p : string) | RPriorityFailed
  | RDeleted | RDeleteFailed | RDeleteCancelled
  | RAdded (title : string) | RSavedToBrainDump | RErrorBrainDump
  | RHabitCreated (name : string) | RHabitCreateFailed
  | RTooMany
  | RFocusDone (task : string) | RQueuedNoted (task : string) (count : nat)
  | RQueuedAdded (title : string) | RQueuedFailed (text : string)
  | RBreather | RNoFocusSession
  | RVoiceFailed | RVoiceEcho (transcription : string) | RVoiceAdded (title : string)
  | RVoiceBrainDump | RVoiceError.

(** Calls to collaborators, in program order. *)
Inductive effect :=
  | EReply (r : reply)
  | EGetActive                                 (* get_active_items() *)
  | EGetCategory (c : string)                  (* get_items_by_category(c) *)
  | EAIMatch (request : string)                (* ai_match_task(...) *)
  | EParseHabit (text : string)                (* parse_habit_intent(text) *)
  | EParseMgmt (text : string)                 (* parse_management_intent(text) *)
  | ECategorize (text : string)                (* categorize_message(text) *)
  | EHabitComplete (name : string)             (* handle_habit_complete(...) *)
  | ECreateHabit (name : string)               (* create_habit(...) *)
  | EUpdateItem (page_id field value : string) (* update_item(page_id, {field: value}) *)
  | EDeleteItem (page_id : string)             (* delete_item(page_id): archive *)
  | EAddLifeArea (title : string)              (* add_to_life_areas(...) *)
  | ELogProgress (activity : string)           (* log_progress(...) *)
  | EBrainDump (title : string).               (* add_to_brain_dump(...) *)

(** Effects that write to the store. *)
Definition is_store_write (e : effect) : bool :=
  match e with
  | ECreateHabit _ | EUpdateItem _ _ _ | EDeleteItem _ | EAddLifeArea _
  | ELogProgress _ | EBrainDump _ | EHabitComplete _ => true
  | _ => false
  end.

(** The ConversationHandler state of the focus conversation. *)
Inductive conv_state := FOCUS_CHOOSING | FOCUS_ACTIVE.

Record focus_session := mk_focus { fs_task : string; fs_page_id : string }.

(** Module-level mutable state of bot.py. *)
Record bot_state := mk_state {
  pending_deletes : gmap Z string;
  user_xp : gmap Z xp_rec;
  focus_sessions : gmap Z focus_session;
  focus_pending_tasks : gmap Z (list string);
  focus_conv : gmap Z conv_state;
  request_history : gmap Z (list Z)
}.

Definition set_pending (m : gmap Z string) (s : bot_state) : bot_state :=
  mk_state m (user_xp s) (focus_sessions s) (focus_pending_tasks s) (focus_conv s) (request_history s).
Definition set_xp (m : gmap Z xp_rec) (s : bot_state) : bot_state :=
  mk_state (pending_deletes s) m (focus_sessions s) (focus_pending_tasks s) (focus_conv s) (request_history s).
Definition set_focus (fs : gmap Z focus_session) (fp : gmap Z (list string))
    (fc : gmap Z conv_state) (s : bot_state) : bot_state :=
  mk_state (pending_deletes s) (user_xp s) fs fp fc (request_history s).
Definition set_history (m : gmap Z (list Z)) (s : bot_state) : bot_state :=
  mk_state (pending_deletes s) (user_xp s) (focus_sessions s) (focus_pending_tasks s) (focus_conv s) m.

(** [add_xp] on the process state. *)
Definition award (s : bot_state) (user_id today amount : Z) : bot_state * xp_rec :=
  let '(m, u) := add_xp (user_xp s) user_id today amount in (set_xp m s, u).

(** Outcomes of the remote calls one message handler makes. *)
Record env := mk_env {
  env_key_set : bool;                        (* bool(GROQ_API_KEY) *)
  env_today : Z;                             (* datetime.now().date() *)
  env_now : Z;                               (* time.time() *)
  env_active : option (list page);           (* get_active_items' query *)
  env_category_items : string -> list page;  (* get_items_by_category(c) *)
  env_match : match_outcome;                 (* the ai_match_task reply *)
  env_update_ok : string -> bool;            (* update_item(...) returned an id *)
  env_delete_ok : string -> bool;            (* delete_item(...) returned True *)
  env_categorize : string -> groq_outcome;   (* the categorize_message reply *)
  env_add_ok : string -> bool;               (* add_to_life_areas(title=...) returned an id *)
  env_habit_ok : bool;                       (* create_habit(...) returned an id *)
  env_allowed : list Z                       (* ALLOWED_USER_IDS *)
}.

(* ------------------------------------------------------------------ *)
(** ** Intent resolver (bot.py) *)

(** A parsed management intent: [intent.get("intent")], [target],
    [category], [new_priority], [original_text]; an absent or [null]
    string field is [""] / [None]. *)
Record mgmt_intent := mk_mgmt {
  mi_intent : string;
  mi_target : string;
  mi_category : option string;
  mi_new_priority : option string;
  mi_original_text : string
}.

Inductive habit_intent :=
  | HCreate (name : string)
  | HComplete (name : string)
  | HNone.

(** Outcomes of the two intent-classification calls, per text. *)
Record intents := mk_intents {
  parse_habit_intent : string -> habit_intent;
  parse_management_intent : string -> mgmt_intent
}.

(** Python truthiness of an optional string. *)
Definition truthy (o : option string) : option string :=
  match o with
  | Some c => if String.eqb c "" then None else Some c
  | None => None
  end.

Definition targeted_action (a : string) : bool :=
  in_list a ["delete"; "complete"; "update_priority"].

(** [format_item_for_display(item)] raises on a [null] Priority or
    Category select, and on a non-empty title whose first segment has no
    ["text"] key ([props["Name"]["title"][0]["text"]["content"]]). *)
Definition format_raises (p : page) : bool :=
  select_null p "Priority" || select_null p "Category" ||
  match props p !! "Name" with
  | Some (PTitle (TOther _ :: _)) => true
  | _ => false
  end.

(** [handle_management_command(update, intent, user_id)]: the new state,
    the effects in order, and whether it raised. *)
Definition handle_management_command (s : bot_state) (intent : mgmt_intent)
    (user_id : Z) (e : env) : bot_state * list effect * bool :=
  let action := mi_intent intent in
  let target := mi_target intent in
  if String.eqb action "query" then
    match truthy (mi_category intent) with
    | Some c =>
        match env_category_items e c with
        | [] => (s, [EGetCategory c; EReply (RNoCategoryItems c)], false)
        | items =>
            if existsb format_raises (firstn 15 items) then (s, [EGetCategory c], true)
            else (s, [EGetCategory c; EReply (RItemList (List.length items))], false)
        end
    | None =>
        match get_active_items (env_active e) with
        | [] => (s, [EGetActive; EReply RNoActiveItems], false)
        | items =>
            if existsb format_raises (firstn 15 items) then (s, [EGetActive], true)
            else (s, [EGetActive; EReply (RItemList (List.length items))], false)
        end
    end
  else
    let all_items := get_active_items (env_active e) in
    match all_items with
    | [] => (s, [EGetActive; EReply RNoItemsToManage], false)
    | _ =>
        let request := if String.eqb target "" then mi_original_text intent else target in
        let pre := [EGetActive; EAIMatch request] in
        match ai_match_task (env_key_set e) all_items (env_match e) with
        | None => (s, pre, true)
        | Some None => (s, app pre [EReply (RNoMatch target)], false)
        | Some (Some item) =>
            let pid := page_id item in
            match title_strict item with
            | None => (s, pre, true)
            | Some title =>
                if String.eqb action "delete" then
                  (set_pending (<[user_id := pid]> (pending_deletes s)) s,
                   app pre [EReply (RConfirmDelete title)], false)
                else if String.eqb action "complete" then
                  if env_update_ok e pid then
                    let '(s', _) := award s user_id (env_today e) 25 in
                    (s', app pre [EUpdateItem pid "status" "Done";
                                 ELogProgress ("Completed: " ++ title);
                                 EReply (RMarkedDone title)], false)
                  else (s, app pre [EUpdateItem pid "status" "Done"; EReply RUpdateFailed], false)
                else if String.eqb action "update_priority" then
                  match truthy (mi_new_priority intent) with
                  | Some np =>
                      (s, app pre [EUpdateItem pid "priority" np;
                                  EReply (if env_update_ok e pid then RPriorityUpdated title np
                                          else RPriorityFailed)], false)
                  | None => (s, app pre [EReply RPriorityFailed], false)
                  end
                else (s, pre, false)
            end
        end
    end.

Definition confirm_words : list string := ["YES"; "نعم"; "اي"].

(** The [try] body of [handle_text] after the pending-delete check; the
    [bool] says whether it raised. *)
Definition handle_text_classify (s : bot_state) (user_id : Z) (text : string)
    (e : env) (ni : intents) : bot_state * list effect * bool :=
  match parse_habit_intent ni text with
  | HCreate name =>
      (s, [EParseHabit text; ECreateHabit name;
           EReply (if env_habit_ok e then RHabitCreated name else RHabitCreateFailed)], false)
  | HComplete name => (s, [EParseHabit text; EHabitComplete name], false)
  | HNone =>
      let intent := parse_management_intent ni text in
      let pre := [EParseHabit text; EParseMgmt text] in
      if negb (String.eqb (mi_intent intent) "none") then
        let '(s', effs, raised) := handle_management_command s intent user_id e in
        (s', app pre effs, raised)
      else
        match categorize_message (env_key_set e) text false false (env_categorize e text) with
        | CatDict (Some _) (Some _) (Some _) (Some title) (Some _) _ =>
            if env_add_ok e title then
              let '(s', _) := award s user_id (env_today e) XP_TASK_ADDED in
              (s', app pre [ECategorize text; EAddLifeArea title; EReply (RAdded title)], false)
            else
              (s, app pre [ECategorize text; EAddLifeArea title;
                          EBrainDump (take 100 text); EReply RSavedToBrainDump], false)
        | _ => (s, app pre [ECategorize text], true)   (* KeyError on result[...] *)
        end
  end.

(** [handle_text] (without its decorators). *)
Definition handle_text (s : bot_state) (user_id : Z) (text : string)
    (e : env) (ni : intents) : bot_state * list effect :=
  match pending_deletes s !! user_id with
  | Some page_id =>
      let s' := set_pending (delete user_id (pending_deletes s)) s in
      if in_list (py_upper text) confirm_words then
        (s', [EDeleteItem page_id;
              EReply (if env_delete_ok e page_id then RDeleted else RDeleteFailed)])
      else (s', [EReply RDeleteCancelled])
  | None =>
      let '(s', effs, raised) := handle_text_classify s user_id text e ni in
      if raised then (s', app effs [EBrainDump (take 100 text); EReply RErrorBrainDump])
      else (s', effs)
  end.

(* ------------------------------------------------------------------ *)
(** ** Decorators: [authorized_only], [rate_limited], [secure] *)

Definition RATE_LIMIT_WINDOW : Z := 60.
Definition MAX_REQUESTS_PER_WINDOW : nat := 20.

(** [authorized_only]: [user] is [update.effective_user] ([None] when
    absent); [true] when the wrapped handler runs. *)
Definition authorized (allowed : list Z) (user : option Z) : bool :=
  match user with
  | None => false
  | Some uid =>
      match allowed with
      | [] => true
      | _ => bool_decide (uid ∈ allowed)
      end
  end.

(** [rate_limited] wrapped around a handler [f]. *)
Definition rate_limited (f : bot_state -> bot_state * list effect)
    (s : bot_state) (user_id now : Z) : bot_state * list effect :=
  let hist := List.filter (fun t => now - t <? RATE_LIMIT_WINDOW)
                          (default [] (request_history s !! user_id)) in
  if (MAX_REQUESTS_PER_WINDOW <=? List.length hist)%nat then
    (set_history (<[user_id := hist]> (request_history s)) s, [EReply RTooMany])
  else f (set_history (<[user_id := app hist [now]]> (request_history s)) s).

(** [secure = authorized_only(rate_limited(f))] *)
Definition secure (f : bot_state -> bot_state * list effect)
    (s : bot_state) (user_id : Z) (e : env) : bot_state * list effect :=
  if authorized (env_allowed e) (Some user_id) then rate_limited f s user_id (env_now e)
  else (s, []).

(* ------------------------------------------------------------------ *)
(** ** Focus mode: [focus_complete] (bot.py) *)

Definition completion_words : list string := ["done"; "finished"; "complete"; "تم"; "خلص"].

(** The [for queued_text in pending_tasks] loop of [focus_complete]. *)
Fixpoint replay_queued (s : bot_state) (user_id : Z) (e : env) (queued : list string)
    : bot_state * list effect :=
  match queued with
  | [] => (s, [])
  | qt :: rest =>
      let '(s1, effs1) :=
        match categorize_message (env_key_set e) qt false false (env_categorize e qt) with
        | CatDict (Some cat) (Some _) (Some _) (Some title) (Some _) _ =>
            if env_add_ok e title then
              let '(s', _) := award s user_id (env_today e) XP_TASK_ADDED in
              (s', [ECategorize qt; EAddLifeArea title; EReply (RQueuedAdded title)])
            else (s, [ECategorize qt; EAddLifeArea title])
        | _ => (s, [ECategorize qt; EReply (RQueuedFailed (take 30 qt))])
        end in
      let '(s2, effs2) := replay_queued s1 user_id e rest in
      (s2, app effs1 effs2)
  end.

(** [focus_complete] for a text message in state [FOCUS_ACTIVE]; returning
    [ConversationHandler.END] removes the user's conversation state. *)
Definition focus_complete (s : bot_state) (user_id : Z) (text : string) (e : env)
    : bot_state * list effect :=
  if in_list (py_lower text) completion_words then
    let session := focus_sessions s !! user_id in
    let pending_tasks := default [] (focus_pending_tasks s !! user_id) in
    let s1 := set_focus (delete user_id (focus_sessions s))
                        (delete user_id (focus_pending_tasks s))
                        (delete user_id (focus_conv s)) s in
    match session with
    | Some sess =>
        let '(s2, _) := award s1 user_id (env_today e) XP_FOCUS_COMPLETED in
        let '(s3, effs) := replay_queued s2 user_id e pending_tasks in
        (s3, app [EUpdateItem (fs_page_id sess) "status" "Done"; EReply (RFocusDone (fs_task sess))]
                 (app effs (match pending_tasks with [] => [] | _ => [EReply RBreather] end)))
    | None => (s1, [EReply RNoFocusSession])
    end
  else
    let task := match focus_sessions s !! user_id with
                | Some sess => fs_task sess | None => "your task" end in
    let q := app (default [] (focus_pending_tasks s !! user_id)) [text] in
    (set_focus (focus_sessions s) (<[user_id := q]> (focus_pending_tasks s)) (focus_conv s) s,
     [EReply (RQueuedNoted task (List.length q))]).

(** Dispatch of a non-command text message: the focus ConversationHandler
    is registered first and takes the message in state [FOCUS_ACTIVE]
    (in [FOCUS_CHOOSING] none of its handlers matches a text message);
    otherwise the [secure]-wrapped [handle_text] runs. *)
Definition dispatch_text (s : bot_state) (user_id : Z) (text : string)
    (e : env) (ni : intents) : bot_state * list effect :=
  match focus_conv s !! user_id with
  | Some FOCUS_ACTIVE => focus_complete s user_id text e
  | _ => secure (fun s' => handle_text s' user_id text e ni) s user_id e
  end.

(* ------------------------------------------------------------------ *)
(** ** Voice path: [transcribe_voice] and [handle_voice] *)

(** The Whisper request: timeout, another exception (its message), or an
    HTTP reply with its status and text body. *)
Inductive whisper_outcome :=
  | WTimeout
  | WRaise (msg : string)
  | WHttp (status : Z) (body : string).

Definition transcribe_voice (key_set : bool) (o : whisper_outcome) : string :=
  if negb key_set then "[Transcription failed: API key not configured]" else
  match o with
  | WTimeout => "[Transcription failed: timeout]"
  | WRaise msg => "[Transcription failed: " ++ msg ++ "]"
  | WHttp status body =>
      if negb (status =? 200) then "[Transcription failed: " ++ pretty status ++ "]"
      else
        let transcription := strip body in
        if String.eqb transcription "" then "[Voice note was empty or inaudible]"
        else transcription
  end.

(** The [try] body of [handle_voice] after the failure check; [bool]:
    raised. *)
Definition handle_voice_classify (s : bot_state) (user_id : Z) (t : string)
    (e : env) (ni : intents) : bot_state * list effect * bool :=
  match parse_habit_intent ni t with
  | HCreate name =>
      (s, [EParseHabit t; ECreateHabit name;
           EReply (if env_habit_ok e then RHabitCreated name else RHabitCreateFailed);
           EReply (RVoiceEcho t)], false)
  | HComplete name => (s, [EParseHabit t; EHabitComplete name; EReply (RVoiceEcho t)], false)
  | HNone =>
      let intent := parse_management_intent ni t in
      let pre := [EParseHabit t; EParseMgmt t] in
      if negb (String.eqb (mi_intent intent) "none") then
        let '(s', effs, raised) := handle_management_command s intent user_id e in
        if raised then (s', app pre effs, true)
        else (s', app pre (app effs [EReply (RVoiceEcho t)]), false)
      else
        match categorize_message (env_key_set e) t false false (env_categorize e t) with
        | CatDict _ _ _ ti _ _ =>
            let title := default (take 50 t) ti in
            if env_add_ok e title then
              (s, app pre [ECategorize t; EAddLifeArea title; EReply (RVoiceAdded title)], false)
            else
              (s, app pre [ECategorize t; EAddLifeArea title; EBrainDump title;
                           EReply RVoiceBrainDump], false)
        | CatNotDict => (s, app pre [ECategorize t], true)   (* result.get on a non-dict *)
        end
  end.

(** [handle_voice] (without its decorators), for the Whisper outcome [o]. *)
Definition handle_voice (s : bot_state) (user_id : Z) (o : whisper_outcome)
    (e : env) (ni : intents) : bot_state * list effect :=
  let transcription := transcribe_voice (env_key_set e) o in
  if startswith transcription "[" then
    (s, [EReply RVoiceFailed; EBrainDump "Voice note (transcription failed)"])
  else
    let '(s', effs, raised) := handle_voice_classify s user_id transcription e ni in
    if raised then (s', app effs [EReply RVoiceError; EBrainDump "Voice note (error)"])
    else (s', effs).

(* ------------------------------------------------------------------ *)
(** ** [ALLOWED_USER_IDS] *)

(** [s.split(sep)]: all pieces, empty ones included. *)
Fixpoint split_on_aux (sep : ascii) (s : string) (cur : list ascii) : list string :=
  match s with
  | EmptyString => [string_of_list_ascii (rev cur)]
  | String c r =>
      if ascii_dec c sep then string_of_list_ascii (rev cur) :: split_on_aux sep r []
      else split_on_aux sep r (c :: cur)
  end.

Definition split_on (sep : ascii) (s : string) : list string := split_on_aux sep s [].

Definition is_digit (c : ascii) : bool :=
  let n := nat_of_ascii c in (48 <=? n)%nat && (n <=? 57)%nat.

(** [s.isdigit()]: non-empty, all digits; exact on ASCII strings (Python
    also accepts other Unicode digits) *)
Definition isdigit (s : string) : bool :=
  match s with
  | EmptyString => false
  | _ => forallb is_digit (list_ascii_of_string s)
  end.

(** [int(s)] for a string of digits *)
Definition digits_to_Z (s : string) : Z :=
  fold_left (fun acc c => 10 * acc + Z.of_nat (nat_of_ascii c - 48)) (list_ascii_of_string s) 0.

(** [[int(x.strip()) for x in s.split(",") if x.strip().isdigit()]], exact
    for an ASCII [s] *)
Definition parse_allowed_ids (s : string) : list Z :=
  map (fun x => digits_to_Z (strip x))
      (List.filter (fun x => isdigit (strip x)) (split_on "," s)).

(* ------------------------------------------------------------------ *)
(** ** Levels: [get_level] (bot.py) *)

Definition LEVELS : list (Z * string) :=
  [(0, "🌱 Seedling"); (50, "🌿 Sprout"); (150, "🌳 Sapling"); (350, "🌲 Tree");
   (600, "🏔️ Mountain"); (1000, "⭐ Star"); (2000, "🌟 Superstar"); (5000, "🚀 Legend")].

(** The loop [for i, (threshold, name) in enumerate(LEVELS)], starting at
    index [i] with the current [(level, title)]. *)
Fixpoint get_level_loop (xp : Z) (i : nat) (ls : list (Z * string)) (acc : nat * string)
    : nat * string :=
  match ls with
  | [] => acc
  | (threshold, name) :: rest =>
      get_level_loop xp (S i) rest (if threshold <=? xp then (S i, name) else acc)
  end.

Definition get_level (xp : Z) : nat * string :=
  get_level_loop xp 0 LEVELS (0%nat, "🌱 Seedling").

(* ------------------------------------------------------------------ *)
(** ** Focus mode: [focus_start] and [focus_cancel] (bot.py) *)

Record focus_task := mk_focus_task {
  ft_id : string;
  ft_title : string;
  ft_priority : string
}.

(** [props.get("Priority", {}).get("select", {}).get("name", "Medium")]:
    [None] when the select is [null] ([None.get] raises). *)
Definition focus_priority (p : page) : option string :=
  match props p !! "Priority" with
  | Some (PSelect None) => None
  | Some (PSelect (Some n)) => Some n
  | _ => Some "Medium"
  end.

(** [props.get("Name", {}).get("title", [{}])[0].get("plain_text", "Untitled")]:
    [None] for an empty title list ([IndexError]). *)
Definition focus_title (p : page) : option string :=
  match props p !! "Name" with
  | Some (PTitle []) => None
  | Some (PTitle (sg :: _)) => Some (seg_plain sg)
  | _ => Some "Untitled"
  end.

(** The [for item in items] loop collecting [high_priority]; [None] when
    it raised. *)
Fixpoint high_priority_of (items : list page) : option (list focus_task) :=
  match items with
  | [] => Some []
  | p :: rest =>
      match focus_priority p, focus_title p with
      | Some pr, Some t =>
          match high_priority_of rest with
          | None => None
          | Some r =>
              Some (if in_list pr ["High"; "Medium"] then mk_focus_task (page_id p) t pr :: r else r)
          end
      | _, _ => None
      end
  end.

(** What [focus_start] ends with: it raised, no active items, no High or
    Medium task, or the keyboard of the first five candidates (stored in
    [context.user_data["focus_tasks"]], conversation in [FOCUS_CHOOSING]). *)
Inductive focus_start_result :=
  | FSRaise
  | FSNoItems
  | FSNoHighPriority
  | FSChoose (tasks : list focus_task).

Definition focus_start (resp : option (list page)) : focus_start_result :=
  match get_active_items resp with
  | [] => FSNoItems
  | items =>
      match high_priority_of items with
      | None => FSRaise
      | Some [] => FSNoHighPriority
      | Some hp => FSChoose (firstn 5 hp)
      end
  end.

(** [focus_cancel]: the new state and the number of discarded queued tasks
    the reply reports. *)
Definition focus_cancel (s : bot_state) (user_id : Z) : bot_state * nat :=
  (set_focus (delete user_id (focus_sessions s)) (delete user_id (focus_pending_tasks s))
             (delete user_id (focus_conv s)) s,
   List.length (default [] (focus_pending_tasks s !! user_id))).

(** Several text messages of one user, dispatched in order. *)
Fixpoint dispatch_texts (s : bot_state) (user_id : Z) (texts : list string)
    (e : env) (ni : intents) : bot_state * list effect :=
  match texts with
  | [] => (s, [])
  | t :: rest =>
      let '(s1, effs1) := dispatch_text s user_id t e ni in
      let '(s2, effs2) := dispatch_texts s1 user_id rest e ni in
      (s2, app effs1 effs2)
  end.

(** The texts handed to [categorize_message], in order. *)
Fixpoint categorized_texts (effs : list effect) : list string :=
  match effs with
  | [] => []
  | ECategorize t :: rest => t :: categorized_texts rest
  | _ :: rest => categorized_texts rest
  end.

(* ------------------------------------------------------------------ *)
(** ** Habits: [get_habit_by_name] (habits.py) *)

(** [habit.get("properties", {}).get("Name", {}).get("title", [{}])], then
    [title[0].get("text", {}).get("content", "")] when the list is
    non-empty; [None] when it is empty (the habit is skipped). *)
Definition habit_title (h : page) : option string :=
  match props h !! "Name" with
  | Some (PTitle []) => None
  | Some (PTitle (sg :: _)) => Some (seg_content "" sg)
  | _ => Some ""
  end.

(** The title, [.lower()]ed. *)
Definition habit_title_lower (h : page) : option string := option_map py_lower (habit_title h).

Definition habit_matches (name_lower : string) (h : page) : bool :=
  match habit_title_lower h with
  | Some title => contains title name_lower || contains name_lower title
  | None => false
  end.

(** [get_habit_by_name(name_query)] over the result [habits] of
    [get_habits(active_only=True)]. *)
Fixpoint get_habit_by_name_loop (name_lower : string) (habits : list page) : option page :=
  match habits with
  | [] => None
  | h :: rest => if habit_matches name_lower h then Some h else get_habit_by_name_loop name_lower rest
  end.

Definition get_habit_by_name (habits : list page) (name_query : string) : option page :=
  get_habit_by_name_loop (py_lower name_query) habits.

(* ------------------------------------------------------------------ *)
(** ** Store writes: [update_item], [add_to_life_areas], [add_to_brain_dump] *)

(** The [updates] dict of [update_item]: its ["priority"], ["status"] and
    ["category"] entries ([None] = key absent). *)
Record item_updates := mk_updates {
  up_priority : option string;
  up_status : option string;
  up_category : option string
}.

(** The [properties] dict [update_item] sends. *)
Definition update_properties (u : item_updates) : gmap string prop_val :=
  let m := match up_priority u with Some v => {[ "Priority" := PSelect (Some v) ]} | None => ∅ end in
  let m := match up_status u with Some v => <[ "Status" := PSelect (Some v) ]> m | None => m end in
  match up_category u with Some v => <[ "Category" := PSelect (Some v) ]> m | None => m end.

(** [notion.pages.update(page_id, properties)] on a database held as a
    list of pages: the given properties replace those of the same name. *)
Definition pages_update (pid : string) (ps : gmap string prop_val) (db : list page) : list page :=
  map (fun p => if String.eqb (page_id p) pid then mk_page (page_id p) (ps ∪ props p) else p) db.

(** [update_item(page_id, updates)]; [ok] is whether [pages.update]
    succeeded. *)
Definition update_item (ok : bool) (pid : string) (u : item_updates) (db : list page)
    : list page * option string :=
  if ok then (pages_update pid (update_properties u) db, Some pid) else (db, None).



(** A Brain Dump page as [add_to_brain_dump] builds it: title, the
    [Content] text, the [Type] select, the [Files] URL (present only for a
    truthy [file_url]) and the icon. *)
Record brain_dump_entry := mk_bd {
  bd_title : string;
  bd_content : string;
  bd_type : string;
  bd_file : option string;
  bd_icon : string
}.

Definition TYPE_ICONS : list (string * string) :=
  [("text", "💭"); ("voice", "🎤"); ("photo", "📸"); ("document", "📄");
   ("idea", "💡"); ("reminder", "⏰")].

(** [d.get(k, dflt)] on an association list with distinct keys *)
Definition assoc_get (d : list (string * string)) (k dflt : string) : string :=
  match List.find (fun kv => String.eqb (fst kv) k) d with
  | Some kv => snd kv
  | None => dflt
  end.

Definition add_to_brain_dump (title content msg_type : string) (file_url : option string)
    : brain_dump_entry :=
  mk_bd title (take 2000 content) msg_type (truthy file_url) (assoc_get TYPE_ICONS msg_type "📝").

(* ------------------------------------------------------------------ *)
(** ** Markdown fences around a model reply (parse_management_intent, ai_match_task) *)

(** [last(lines)] as Python's [lines[-1]] on a non-empty list *)
Definition last_line (ls : list string) : string := List.last ls "".

(** [content = content.strip(); if content.startswith("```"): ...] *)
Definition strip_code_fence (content : string) : string :=
  let c := strip content in
  if startswith c "```" then
    let lines := split_on "010" c in
    let lines := if String.eqb (strip (last_line lines)) "```"
                 then tail (removelast lines) else tail lines in
    String.concat (String "010" EmptyString) lines
  else c.

(* ------------------------------------------------------------------ *)
(** ** Predicates and concrete scenarios used by the properties *)

(** A page whose [Status] select has no name: the key is missing, the
    select is [null], or the property is not a select. *)
Definition status_absent (p : page) : Prop :=
  match props p !! "Status" with
  | Some (PSelect (Some _)) => False
  | _ => True
  end.

(** A provider call that failed: an exception or timeout, an error
    status, a body that is not JSON, without content, or whose content
    is not JSON. *)
Definition provider_failed (o : groq_outcome) : Prop :=
  match o with
  | GRaise => True
  | GHttp status body =>
      ~ (200 <= status < 300) \/
      match body with BodyContent (Some _) => False | _ => True end
  end.

Definition empty_state : bot_state := mk_state ∅ ∅ ∅ ∅ ∅ ∅.

(** An environment in which every remote call succeeds and the matcher
    answers [m]. *)
Definition sample_env (active : list page) (m : match_outcome) : env :=
  mk_env true 20000 1000000 (Some active) (fun _ => []) m
         (fun _ => true) (fun _ => true)
         (fun t => GHttp 200 (BodyContent (Some (CatDict (Some "Personal") (Some "Task")
                        (Some "Medium") (Some t) (Some t) None))))
         (fun _ => true) true [].

Definition delete_intent (target : string) : mgmt_intent :=
  mk_mgmt "delete" target None None ("delete " ++ target).

(** The requests of [user_id] still inside the rate-limit window at [now]. *)
Definition recent_requests (s : bot_state) (user_id now : Z) : list Z :=
  List.filter (fun t => now - t <? RATE_LIMIT_WINDOW) (default [] (request_history s !! user_id)).

Definition sample_intents : intents :=
  mk_intents (fun _ => HNone) (fun t => mk_mgmt "none" "" None None t).

Definition pending_state : bot_state :=
  mk_state {[ 1 := "X" ]} ∅ ∅ ∅ ∅ ∅.

(** A page titled "Gym session" with no Status property. *)
Definition gym_page : page := mk_page "gym" {[ "Name" := PTitle [TText "Gym session"] ]}.

(** A focus session on "Write report" (page "r1") for user 1. *)
Definition focus_state : bot_state :=
  mk_state ∅ ∅ {[ 1 := mk_focus "Write report" "r1" ]} ∅ {[ 1 := FOCUS_ACTIVE ]} ∅.

(** The same session with the text "call mom" queued. *)
Definition focus_queued_state : bot_state :=
  mk_state ∅ ∅ {[ 1 := mk_focus "Write report" "r1" ]} {[ 1 := ["call mom"] ]}
           {[ 1 := FOCUS_ACTIVE ]} ∅.

(** Every call succeeds except [add_to_life_areas], which returns [None]. *)
Definition add_fails_env : env :=
  mk_env true 20000 1000000 (Some []) (fun _ => []) MRaise
         (fun _ => true) (fun _ => true)
         (fun t => GHttp 200 (BodyContent (Some (CatDict (Some "Personal") (Some "Task")
                        (Some "Medium") (Some t) (Some t) None))))
         (fun _ => false) true [].

Definition voice_failed_effects : list effect :=
  [EReply RVoiceFailed; EBrainDump "Voice note (transcription failed)"].

Definition days_le (a b : deadline) : Prop := days_left a <= days_left b.

(** A page with a title and a Due Date. *)
Definition due_page (id : string) (day : Z) : page :=
  mk_page id {[ "Name" := PTitle [TText id]; "Due Date" := PDate (Some (DOnly day)) ]}.

(** The number of [LEVELS] thresholds at or below [xp]. *)
Definition level_count (xp : Z) : nat :=
  List.length (List.filter (fun lv => fst lv <=? xp) LEVELS).

(** An [_user_xp] entry with a recorded last action has a streak of at
    least one. *)
Definition streak_ok (u : xp_rec) : Prop := last_action u <> None -> 1 <= streak u.

(** None of the effects writes to the store. *)
Definition no_store_write (effs : list effect) : Prop :=
  Forall (fun ef => is_store_write ef = false) effs.

(** A model reply wrapped in a markdown code fence: [```lang\n body \n```]. *)
Definition fenced (lang body : string) : string :=
  "```" ++ lang ++ String "010" (body ++ String "010" "```").

(** A High-priority task and a page whose Priority select is [null]. *)
Definition high_task_page : page :=
  mk_page "t1" {[ "Name" := PTitle [TText "Plan"]; "Priority" := PSelect (Some "High") ]}.
Definition null_priority_page : page :=
  mk_page "t2" {[ "Name" := PTitle [TText "Call"]; "Priority" := PSelect None ]}.

(** Environments: an allow-list holding only user 2, and a missing
    [GROQ_API_KEY] with every store write succeeding. *)
Definition allow_two_env : env :=
  mk_env true 0 0 None (fun _ => []) MRaise (fun _ => true) (fun _ => true)
         (fun _ => GRaise) (fun _ => true) true [2].

(** User 1 has made 20 requests ten seconds ago. *)
Definition busy_state : bot_state :=
  mk_state ∅ ∅ ∅ ∅ ∅ {[ 1 := repeat 999990 20 ]}.

(* ================================================================== *)
(** * Properties *)

(** ** Helper lemmas *)

Lemma in_list_spec (x : string) (ws : list string) :
  in_list x ws = true <-> In x ws.
Proof.
  unfold in_list. rewrite existsb_exists. split.
  - intros [w [Hin Heq]]. apply String.eqb_eq in Heq. subst. exact Hin.
  - intros Hin. exists x. split; [exact Hin | apply String.eqb_refl].
Qed.

Lemma py_lower_inactive (w : string) : In w inactive_statuses -> py_lower w = w.
Proof. simpl. intros [<- | [<- | [<- | []]]]; reflexivity. Qed.

(** [get_active_items] keeps a page iff its status name, lower-cased, is
    none of the inactive ones. *)
Lemma is_active_page_spec (p : page) :
  is_active_page p = true <->
  ~ (exists w, In w inactive_statuses /\ py_lower (status_name p) = py_lower w).
Proof.
  unfold is_active_page. rewrite negb_true_iff. split.
  - intros Hf [w [Hw Heq]]. rewrite (py_lower_inactive w Hw) in Heq.
    rewrite Heq in Hf. apply not_true_iff_false in Hf. apply Hf.
    apply in_list_spec. exact Hw.
  - intros Hn. apply not_true_iff_false. intros Ht. apply Hn.
    apply in_list_spec in Ht. exists (py_lower (status_name p)).
    split; [exact Ht | symmetry; apply py_lower_inactive; exact Ht].
Qed.

Lemma status_absent_name (p : page) : status_absent p -> status_name p = "No Status".
Proof.
  unfold status_absent, status_name.
  destruct (props p !! "Status") as [[| [n|] | |]|]; tauto.
Qed.

(** C3: for every item the store returns, [get_active_items] drops it iff
    its status name equals "done", "completed" or "archived" ignoring
    case; an item whose status is absent (no Status property, a null
    select, or a non-select property) is always kept. *)
Theorem get_active_items_filter (items : list page) (p : page) :
  (In p (get_active_items (Some items)) <->
     In p items /\
     ~ (exists w, In w ["done"; "completed"; "archived"] /\
                  py_lower (status_name p) = py_lower w)) /\
  (status_absent p -> (In p (get_active_items (Some items)) <-> In p items)).
Proof.
  simpl get_active_items. split.
  - rewrite filter_In, is_active_page_spec. reflexivity.
  - intros Ha. rewrite filter_In, is_active_page_spec.
    rewrite (status_absent_name p Ha). split; [tauto |].
    intros Hin. split; [exact Hin |].
    intros [w [Hw Heq]]. rewrite (py_lower_inactive w Hw) in Heq.
    simpl in Hw. destruct Hw as [<- | [<- | [<- | []]]]; discriminate Heq.
Qed.

(** C5: [add_xp] sets the streak to 1 with no prior action, adds 1 when
    the prior action was exactly the day before, leaves it unchanged when
    the prior action was today, and resets it to 1 when the prior action
    was two or more days before. *)
Theorem add_xp_streak (st : gmap Z xp_rec) (uid today amount : Z) :
  let u := default xp_default (st !! uid) in
  let u' := snd (add_xp st uid today amount) in
  (last_action u = None -> streak u' = 1) /\
  (last_action u = Some (today - 1) -> streak u' = streak u + 1) /\
  (last_action u = Some today -> streak u' = streak u) /\
  (forall l, last_action u = Some l -> today - l >= 2 -> streak u' = 1).
Proof.
  cbn zeta. unfold add_xp, add_xp_rec. simpl snd.
  set (u := default xp_default (st !! uid)).
  repeat split.
  - intros H. rewrite H. reflexivity.
  - intros H. rewrite H. simpl. replace (today - (today - 1)) with 1 by lia. reflexivity.
  - intros H. rewrite H. simpl. replace (today - today) with 0 by lia. reflexivity.
  - intros l H Hl. rewrite H. simpl.
    destruct (Z.eqb_spec (today - l) 1); [lia |].
    destruct (Z.gtb_spec (today - l) 1); [reflexivity | lia].
Qed.

(** C6: when the classification call fails, [categorize_message] returns
    the fallback categorization: category "Ideas", type "Idea", priority
    "Low", title the first 50 characters (code points) of the input,
    summary the input. *)
Theorem categorize_message_fallback (key_set : bool) (text : string)
    (has_image has_file : bool) (o : groq_outcome) :
  provider_failed o ->
  match categorize_message key_set text has_image has_file o with
  | CatDict c ty pr ti su _ =>
      c = Some "Ideas" /\ ty = Some "Idea" /\ pr = Some "Low" /\
      ti = Some (take 50 text) /\ su = Some text
  | CatNotDict => False
  end.
Proof.
  intros Hf. unfold categorize_message.
  destruct key_set; simpl; [| repeat split].
  destruct o as [| status body]; simpl; [repeat split |].
  simpl in Hf.
  destruct ((200 <=? status) && (status <? 300)) eqn:Hs; [| repeat split].
  apply andb_true_iff in Hs. destruct Hs as [H1 H2].
  apply Z.leb_le in H1. apply Z.ltb_lt in H2.
  destruct Hf as [Hf | Hf]; [lia |].
  destruct body as [| | [v|]]; try contradiction; repeat split.
Qed.

Lemma categorize_message_fallback_witness :
  provider_failed GRaise /\
  match categorize_message true "buy milk" false false GRaise with
  | CatDict c ty pr ti su _ =>
      c = Some "Ideas" /\ ty = Some "Idea" /\ pr = Some "Low" /\
      ti = Some (take 50 "buy milk") /\ su = Some "buy milk"
  | CatNotDict => False
  end.
Proof.
  split; [exact I |].
  apply (categorize_message_fallback true "buy milk" false false GRaise). exact I.
Defined.

(** C10: with the allow-list parsed from the environment, the guard
    ignores a user iff the list is non-empty and does not contain the
    user's id; an empty list admits every user. *)
Theorem authorized_only_guard (env_str : string) (uid : Z) :
  let ids := parse_allowed_ids env_str in
  (authorized ids (Some uid) = false <-> ids <> [] /\ ~ In uid ids) /\
  (ids = [] -> authorized ids (Some uid) = true).
Proof.
  cbn zeta. destruct (parse_allowed_ids env_str) as [| i rest] eqn:Hids.
  - simpl. split; [split; [discriminate | intros [H _]; congruence] | reflexivity].
  - split; [| discriminate].
    unfold authorized. rewrite bool_decide_eq_false, list_elem_of_In.
    split; [intros H; split; [discriminate | exact H] | intros [_ H]; exact H].
Qed.

(** [ai_match_task] selects nothing when the index is 0 or outside [1..n]
    and building the prompt does not raise. *)
Lemma ai_match_task_out_of_range (key_set : bool) (tasks : list page) (tn : option Z) :
  existsb prompt_raises tasks = false ->
  ~ (1 <= default 0 tn <= Z.of_nat (List.length tasks)) ->
  ai_match_task key_set tasks (MHttp 200 (Some tn)) = Some None.
Proof.
  intros Hp Hr. unfold ai_match_task.
  destruct key_set; [| reflexivity]. destruct tasks as [| t r]; [reflexivity |].
  rewrite Hp. simpl negb. cbn iota. simpl (200 =? 200). cbn iota.
  destruct ((0 <? default 0 tn) && (default 0 tn <=? Z.of_nat (List.length (t :: r)))) eqn:E;
    [| reflexivity].
  apply andb_true_iff in E. destruct E as [E1 E2].
  apply Z.ltb_lt in E1. apply Z.leb_le in E2. exfalso. apply Hr. lia.
Qed.

(** With the key set, [ai_match_task] raises while building its prompt as
    soon as one task has a [null] Category or Priority select. *)
Lemma ai_match_task_raise (key_set : bool) (tasks : list page) (o : match_outcome) :
  key_set = true -> existsb prompt_raises tasks = true ->
  ai_match_task key_set tasks o = None.
Proof.
  intros Hk Hp. unfold ai_match_task. rewrite Hk. cbn [negb].
  destruct tasks as [| t r]; [discriminate |]. rewrite Hp. reflexivity.
Qed.

Lemma existsb_Forall_false {A} (f : A -> bool) (l : list A) :
  Forall (fun x => f x = false) l -> existsb f l = false.
Proof. induction 1 as [| x l Hx _ IH]; simpl; [reflexivity | rewrite Hx, IH; reflexivity]. Qed.

Lemma existsb_Exists_true {A} (f : A -> bool) (l : list A) :
  Exists (fun x => f x = true) l -> existsb f l = true.
Proof. induction 1 as [x l Hx | x l _ IH]; simpl; [rewrite Hx | rewrite IH, orb_true_r]; reflexivity. Qed.

Lemma targeted_not_query (a : string) : targeted_action a = true -> String.eqb a "query" = false.
Proof.
  unfold targeted_action. rewrite in_list_spec. simpl.
  intros [<- | [<- | [<- | []]]]; reflexivity.
Qed.

(** C1: for a delete, complete or update_priority intent, no active items
    gives the "no items to manage" reply without calling [ai_match_task];
    when no active item has a [null] Category or Priority select (so the
    matcher's prompt can be built), a matcher reply whose task number is 0
    (or absent) or outside [1..n] gives the "no match" reply, with the
    state unchanged and no store write. When the API key is set and some
    active item has such a [null] select, [ai_match_task] raises before its
    request: the command raises with the state unchanged, no item chosen
    and no store write. *)
Theorem handle_management_command_no_guess (s : bot_state) (intent : mgmt_intent)
    (uid : Z) (e : env) :
  targeted_action (mi_intent intent) = true ->
  (get_active_items (env_active e) = [] ->
     handle_management_command s intent uid e = (s, [EGetActive; EReply RNoItemsToManage], false)) /\
  (forall tn : option Z,
     env_match e = MHttp 200 (Some tn) ->
     ~ (1 <= default 0 tn <= Z.of_nat (List.length (get_active_items (env_active e)))) ->
     Forall (fun p => prompt_raises p = false) (get_active_items (env_active e)) ->
     exists request,
       handle_management_command s intent uid e =
         (s, [EGetActive; EAIMatch request; EReply (RNoMatch (mi_target intent))], false) \/
       handle_management_command s intent uid e =
         (s, [EGetActive; EReply RNoItemsToManage], false)) /\
  (env_key_set e = true ->
     Exists (fun p => prompt_raises p = true) (get_active_items (env_active e)) ->
     exists request,
       handle_management_command s intent uid e = (s, [EGetActive; EAIMatch request], true)).
Proof.
  intros Ht. unfold handle_management_command.
  rewrite (targeted_not_query _ Ht). split; [| split].
  - intros He. rewrite He. reflexivity.
  - intros tn Hm Hr Hf.
    pose proof (existsb_Forall_false _ _ Hf) as Hp.
    destruct (get_active_items (env_active e)) as [| p l] eqn:Hitems.
    + exists "". right. reflexivity.
    + rewrite Hm, (ai_match_task_out_of_range _ _ _ Hp Hr).
      eexists. left. reflexivity.
  - intros Hk Hx. pose proof (existsb_Exists_true _ _ Hx) as Hp.
    destruct (get_active_items (env_active e)) as [| p l] eqn:Hitems; [inversion Hx |].
    rewrite (ai_match_task_raise _ _ _ Hk Hp). eexists. reflexivity.
Qed.

Lemma handle_management_command_no_guess_witness :
  handle_management_command empty_state (delete_intent "gym") 1 (sample_env [] MRaise) =
    (empty_state, [EGetActive; EReply RNoItemsToManage], false) /\
  (exists request,
     handle_management_command empty_state (delete_intent "gym") 1
       (sample_env [high_task_page] (MHttp 200 (Some (Some 5)))) =
       (empty_state, [EGetActive; EAIMatch request; EReply (RNoMatch "gym")], false) \/
     handle_management_command empty_state (delete_intent "gym") 1
       (sample_env [high_task_page] (MHttp 200 (Some (Some 5)))) =
       (empty_state, [EGetActive; EReply RNoItemsToManage], false)) /\
  (exists request,
     handle_management_command empty_state (delete_intent "gym") 1
       (sample_env [high_task_page; null_priority_page] (MHttp 200 (Some (Some 1)))) =
       (empty_state, [EGetActive; EAIMatch request], true)).
Proof.
  split; [| split].
  - apply (proj1 (handle_management_command_no_guess empty_state (delete_intent "gym") 1
                    (sample_env [] MRaise) eq_refl)).
    reflexivity.
  - apply (proj1 (proj2 (handle_management_command_no_guess empty_state (delete_intent "gym") 1
                    (sample_env [high_task_page] (MHttp 200 (Some (Some 5)))) eq_refl)) (Some 5)).
    + reflexivity.
    + change (Z.of_nat (List.length (get_active_items
                (env_active (sample_env [high_task_page] (MHttp 200 (Some (Some 5)))))))) with 1.
      simpl. lia.
    + change (get_active_items (env_active (sample_env [high_task_page] (MHttp 200 (Some (Some 5))))))
        with [high_task_page].
      repeat constructor.
  - apply (proj2 (proj2 (handle_management_command_no_guess empty_state (delete_intent "gym") 1
                    (sample_env [high_task_page; null_priority_page] (MHttp 200 (Some (Some 1))))
                    eq_refl))).
    + reflexivity.
    + change (get_active_items (env_active (sample_env [high_task_page; null_priority_page]
                                             (MHttp 200 (Some (Some 1))))))
        with [high_task_page; null_priority_page].
      right. left. reflexivity.
Defined.

(** C2 (counterexample): with a pending delete of item "X", the Arabic
    confirmation word "نعم" (not "YES") archives the item. *)
Lemma pending_delete_other_word_archives :
  "نعم" <> "YES" /\
  In (EDeleteItem "X") (snd (dispatch_text pending_state 1 "نعم" (sample_env [] MRaise) sample_intents)).
Proof. split; [discriminate | vm_compute; left; reflexivity]. Qed.

(** C2 (amended): a text message from a user with a pending delete of
    [pid] that reaches [handle_text] (no active focus conversation, the
    user admitted, under the rate limit) removes the pending entry and
    runs no classification: if its upper-cased text ([text.upper()],
    which [py_upper] computes exactly as far as membership in the
    confirmation words goes) is "YES", "نعم" or "اي", [delete_item pid] is
    called once; otherwise the delete is cancelled with no store write. *)
Theorem dispatch_text_pending_delete (s : bot_state) (uid : Z) (text : string)
    (e : env) (ni : intents) (pid : string) :
  pending_deletes s !! uid = Some pid ->
  focus_conv s !! uid <> Some FOCUS_ACTIVE ->
  authorized (env_allowed e) (Some uid) = true ->
  (List.length (recent_requests s uid (env_now e)) < MAX_REQUESTS_PER_WINDOW)%nat ->
  pending_deletes (fst (dispatch_text s uid text e ni)) !! uid = None /\
  (in_list (py_upper text) confirm_words = true ->
     snd (dispatch_text s uid text e ni) =
       [EDeleteItem pid; EReply (if env_delete_ok e pid then RDeleted else RDeleteFailed)]) /\
  (in_list (py_upper text) confirm_words = false ->
     snd (dispatch_text s uid text e ni) = [EReply RDeleteCancelled]).
Proof.
  intros Hp Hf Ha Hr. unfold dispatch_text.
  assert (Hsec : dispatch_text s uid text e ni =
                 handle_text (set_history (<[uid := app (recent_requests s uid (env_now e)) [env_now e]]>
                                            (request_history s)) s) uid text e ni).
  { unfold dispatch_text.
    destruct (focus_conv s !! uid) as [[|]|] eqn:Hc; try congruence;
    unfold secure; rewrite Ha; unfold rate_limited; fold (recent_requests s uid (env_now e));
    apply Nat.leb_gt in Hr; rewrite Hr; reflexivity. }
  fold (dispatch_text s uid text e ni). rewrite Hsec.
  unfold handle_text.
  set (s1 := set_history (<[uid := app (recent_requests s uid (env_now e)) [env_now e]]>
                                    (request_history s)) s).
  assert (Hp' : pending_deletes s1 !! uid = Some pid) by exact Hp.
  rewrite Hp'.
  destruct (in_list (py_upper text) confirm_words); cbn [fst snd pending_deletes set_pending];
    (split; [apply lookup_delete_eq | split; intros H; congruence]).
Qed.

Lemma dispatch_text_pending_delete_witness :
  pending_deletes pending_state !! 1 = Some "X" /\
  focus_conv pending_state !! 1 <> Some FOCUS_ACTIVE /\
  authorized (env_allowed (sample_env [] MRaise)) (Some 1) = true /\
  (List.length (recent_requests pending_state 1 (env_now (sample_env [] MRaise))) < MAX_REQUESTS_PER_WINDOW)%nat /\
  snd (dispatch_text pending_state 1 "yes" (sample_env [] MRaise) sample_intents) =
    [EDeleteItem "X"; EReply RDeleted] /\
  snd (dispatch_text pending_state 1 "yeſ" (sample_env [] MRaise) sample_intents) =
    [EDeleteItem "X"; EReply RDeleted].
Proof.
  assert (H1 : pending_deletes pending_state !! 1 = Some "X") by reflexivity.
  assert (H2 : focus_conv pending_state !! 1 <> Some FOCUS_ACTIVE) by discriminate.
  assert (H3 : authorized (env_allowed (sample_env [] MRaise)) (Some 1) = true) by reflexivity.
  assert (H4 : (List.length (recent_requests pending_state 1 (env_now (sample_env [] MRaise)))
                < MAX_REQUESTS_PER_WINDOW)%nat) by (vm_compute; lia).
  split; [exact H1 | split; [exact H2 | split; [exact H3 | split; [exact H4 |]]]].
  split.
  - destruct (dispatch_text_pending_delete pending_state 1 "yes" (sample_env [] MRaise)
                sample_intents "X" H1 H2 H3 H4) as [_ [Hy _]].
    apply Hy. reflexivity.
  - destruct (dispatch_text_pending_delete pending_state 1 "yeſ" (sample_env [] MRaise)
                sample_intents "X" H1 H2 H3 H4) as [_ [Hy _]].
    apply Hy. reflexivity.
Defined.

(** The tiering of [search_items]: once the full-query request is empty,
    a non-empty answer to the first significant word is the result. *)
Lemma search_items_tier2 (query : notion_filter -> option (list page)) (q w : string)
    (ws : list string) (r : list page) :
  query (FTitleContains q) = Some [] ->
  significant_words q = w :: ws ->
  query (FTitleContains w) = Some r -> r <> [] ->
  search_items query q = r.
Proof.
  intros H1 H2 H3 H4. unfold search_items, search_tiers.
  rewrite H1, H2, H3. destruct r as [| p r]; [congruence |]. cbn. reflexivity.
Qed.

(** C4 (failing input): for the query "change priority of gym" against a
    database holding only "Gym session" with no Status, tiers 1 and 2 are
    empty, the page is active and its title contains the query token
    "gym", yet [search_items] returns nothing: tier 3 asks the store for
    [Status = "Active"] instead of taking the active items. *)
Lemma search_items_tier3_drops_statusless :
  notion_query [gym_page] (FTitleContains "change priority of gym") = Some [] /\
  significant_words "change priority of gym" = ["priority"; "gym"] /\
  notion_query [gym_page] (FTitleContains "priority") = Some [] /\
  get_active_items (Some [gym_page]) = [gym_page] /\
  fuzzy_match "change priority of gym" gym_page = true /\
  search_items (notion_query [gym_page]) "change priority of gym" = [].
Proof. vm_compute. repeat split. Qed.

(** C7 (failing input): "also call mom" sent during a focus session is
    queued with no store write; on "done" the focused page is set to Done
    and XP awarded, the queued text is classified and its
    [add_to_life_areas] fails, and no message reports that queued text:
    the replay loop has no branch for a [None] page id. *)
Lemma focus_replay_failure_unreported :
  snd (dispatch_text focus_state 1 "also call mom" add_fails_env sample_intents) =
    [EReply (RQueuedNoted "Write report" 1)] /\
  snd (dispatch_text (fst (dispatch_text focus_state 1 "also call mom" add_fails_env sample_intents))
                     1 "done" add_fails_env sample_intents) =
    [EUpdateItem "r1" "status" "Done"; EReply (RFocusDone "Write report");
     ECategorize "also call mom"; EAddLifeArea "also call mom"; EReply RBreather] /\
  user_xp (fst (dispatch_text (fst (dispatch_text focus_state 1 "also call mom" add_fails_env sample_intents))
                     1 "done" add_fails_env sample_intents)) !! 1 =
    Some (mk_xp XP_FOCUS_COMPLETED (Some 20000) 1).
Proof. vm_compute. repeat split. Qed.

(** The non-failure branch of [handle_voice] always starts by classifying
    the habit intent of the transcription. *)
Lemma handle_voice_classify_head (s : bot_state) (uid : Z) (t : string) (e : env) (ni : intents) :
  exists rest, snd (fst (handle_voice_classify s uid t e ni)) = EParseHabit t :: rest.
Proof.
  unfold handle_voice_classify.
  destruct (parse_habit_intent ni t); [eexists; reflexivity | eexists; reflexivity |].
  destruct (negb (String.eqb (mi_intent (parse_management_intent ni t)) "none")).
  - destruct (handle_management_command s (parse_management_intent ni t) uid e) as [[s' effs] []];
      eexists; reflexivity.
  - destruct (categorize_message _ _ _ _ _) as [c ty pr ti su sa |];
      [destruct (env_add_ok e _) |]; eexists; reflexivity.
Qed.

(** C9: [handle_voice] treats the transcription as failed (reply and Brain
    Dump entry only, no classification, no item) exactly when the string
    [transcribe_voice] returns starts with "["; in particular a successful
    Whisper reply whose stripped text starts with "[" takes that path. *)
Theorem handle_voice_bracket_is_failure (s : bot_state) (uid : Z) (o : whisper_outcome)
    (e : env) (ni : intents) :
  (handle_voice s uid o e ni = (s, voice_failed_effects) <->
     startswith (transcribe_voice (env_key_set e) o) "[" = true) /\
  (forall body, env_key_set e = true -> o = WHttp 200 body ->
     startswith (strip body) "[" = true ->
     handle_voice s uid o e ni = (s, voice_failed_effects)).
Proof.
  assert (Hiff : handle_voice s uid o e ni = (s, voice_failed_effects) <->
                 startswith (transcribe_voice (env_key_set e) o) "[" = true).
  { unfold handle_voice. destruct (startswith _ "[") eqn:Hb; [tauto |].
    split; [| discriminate]. intros Heq.
    destruct (handle_voice_classify_head s uid (transcribe_voice (env_key_set e) o) e ni)
      as [rest Hr].
    destruct (handle_voice_classify s uid (transcribe_voice (env_key_set e) o) e ni)
      as [[s' effs] raised].
    simpl in Hr. subst effs. destruct raised; inversion Heq. }
  split; [exact Hiff |].
  intros body Hk Ho Hs. apply Hiff. rewrite Hk, Ho. unfold transcribe_voice. cbn -[strip].
  destruct (strip body) as [| c r]; [discriminate |]. exact Hs.
Qed.

(** ** Deadlines: sorting and slicing lemmas *)

Lemma insert_by_days_In (x y : deadline) (l : list deadline) :
  In y (insert_by_days x l) <-> x = y \/ In y l.
Proof.
  induction l as [| z l IH]; simpl; [tauto |].
  destruct (days_left z <? days_left x); simpl; [rewrite IH |]; tauto.
Qed.

Lemma sort_by_days_In (y : deadline) (l : list deadline) :
  In y (sort_by_days l) <-> In y l.
Proof.
  induction l as [| z l IH]; simpl; [tauto |].
  rewrite insert_by_days_In, IH. tauto.
Qed.

Lemma insert_by_days_sorted (x : deadline) (l : list deadline) :
  Sorted days_le l -> Sorted days_le (insert_by_days x l).
Proof.
  induction l as [| z l IH]; simpl; intros Hs; [repeat constructor |].
  destruct (Z.ltb_spec (days_left z) (days_left x)) as [Hzx | Hxz].
  - apply Sorted_inv in Hs as [Hl Hhd]. constructor; [exact (IH Hl) |].
    destruct l as [| w l']; simpl; [constructor; unfold days_le; lia |].
    destruct (days_left w <? days_left x); constructor;
      [inversion Hhd; assumption | unfold days_le; lia].
  - constructor; [exact Hs |]. constructor. unfold days_le. lia.
Qed.

Lemma sort_by_days_sorted (l : list deadline) : Sorted days_le (sort_by_days l).
Proof.
  induction l as [| z l IH]; simpl; [constructor | apply insert_by_days_sorted; exact IH].
Qed.

Lemma firstn_sorted {A} (R : A -> A -> Prop) (n : nat) (l : list A) :
  Sorted R l -> Sorted R (firstn n l).
Proof.
  revert n. induction l as [| a l IH]; intros n Hs; [destruct n; constructor |].
  destruct n as [| n]; simpl; [constructor |].
  apply Sorted_inv in Hs as [Hl Hhd]. constructor; [exact (IH n Hl) |].
  destruct n as [| n]; simpl; [constructor |].
  destruct l as [| b l']; simpl; [constructor | inversion Hhd; constructor; assumption].
Qed.

Lemma firstn_In_l {A} (n : nat) (l : list A) (x : A) : In x (firstn n l) -> In x l.
Proof.
  intros H. rewrite <- (firstn_skipn n l). apply in_or_app. left. exact H.
Qed.

Lemma py_slice_to_prefix {A} (l : list A) (k : Z) : exists n, py_slice_to l k = firstn n l.
Proof. unfold py_slice_to. destruct (0 <=? k); eexists; reflexivity. Qed.

Lemma py_slice_to_length {A} (l : list A) (k : Z) :
  0 <= k -> (List.length (py_slice_to l k) <= Z.to_nat k)%nat.
Proof.
  intros Hk. unfold py_slice_to. apply Z.leb_le in Hk. rewrite Hk.
  rewrite length_firstn. lia.
Qed.

Lemma deadline_of_spec (now : Z) (p : page) (d : deadline) :
  deadline_of now p = Some d ->
  page_id p = dl_id d /\ title_strict p = Some (dl_title d) /\
  date_value p = Some (dl_date d) /\
  countdown now (dl_date d) = Some (days_left d, formatted_time d) /\ -1 <= days_left d.
Proof.
  unfold deadline_of. destruct (date_value p) as [ds|] eqn:Hdv; [| discriminate].
  destruct (countdown now ds) as [[dl ft]|] eqn:Hc; [| discriminate].
  destruct (Z.leb_spec (-1) dl); [| discriminate].
  destruct (title_strict p) as [t|] eqn:Ht; [| discriminate].
  intros [= <-]. simpl. auto.
Qed.

(** C8 (counterexample): with limit -1 and two active pages due in two and
    three days, [get_upcoming_deadlines] returns one entry: Python's
    [deadlines[:-1]] drops the last entry, and 1 exceeds the limit. *)
Lemma get_upcoming_deadlines_negative_limit :
  List.length (get_upcoming_deadlines
                 (Some [due_page "a" 20002; due_page "b" 20003]) (20000 * SECS_PER_DAY) (-1)) = 1%nat /\
  ~ (Z.of_nat (List.length (get_upcoming_deadlines
                 (Some [due_page "a" 20002; due_page "b" 20003]) (20000 * SECS_PER_DAY) (-1))) <= -1).
Proof.
  assert (H : List.length (get_upcoming_deadlines
                 (Some [due_page "a" 20002; due_page "b" 20003]) (20000 * SECS_PER_DAY) (-1)) = 1%nat)
    by (vm_compute; reflexivity).
  split; [exact H | rewrite H; lia].
Qed.

(** C8 (amended): every entry of [get_upcoming_deadlines] comes from an
    active page carrying a Date, Due Date or Deadline value and a title
    whose first segment can be read, with its days-remaining at least -1;
    the list is sorted ascending by days-remaining; for a limit >= 0 it
    has at most [limit] entries, and for a negative limit it is the sorted
    list without its last [-limit] entries (Python's [deadlines[:limit]]). *)
Theorem get_upcoming_deadlines_spec (resp : option (list page)) (now limit : Z) :
  (forall d, In d (get_upcoming_deadlines resp now limit) ->
     exists p, In p (get_active_items resp) /\ page_id p = dl_id d /\
               title_strict p = Some (dl_title d) /\
               date_value p = Some (dl_date d) /\
               countdown now (dl_date d) = Some (days_left d, formatted_time d) /\
               -1 <= days_left d) /\
  Sorted days_le (get_upcoming_deadlines resp now limit) /\
  (0 <= limit -> (List.length (get_upcoming_deadlines resp now limit) <= Z.to_nat limit)%nat) /\
  (limit < 0 -> get_upcoming_deadlines resp now limit =
     firstn (List.length (upcoming_sorted resp now) - Z.to_nat (- limit)) (upcoming_sorted resp now)).
Proof.
  unfold get_upcoming_deadlines.
  destruct (py_slice_to_prefix (upcoming_sorted resp now) limit) as [n Hn].
  split; [| split; [| split]].
  - intros d Hd. rewrite Hn in Hd. apply firstn_In_l in Hd.
    unfold upcoming_sorted in Hd. rewrite sort_by_days_In in Hd. apply list_elem_of_In in Hd.
    apply list_elem_of_omap in Hd as [p [Hp Hdp]].
    apply list_elem_of_In in Hp. exists p. split; [exact Hp |].
    exact (deadline_of_spec now p d Hdp).
  - rewrite Hn. apply firstn_sorted, sort_by_days_sorted.
  - apply py_slice_to_length.
  - intros Hl. unfold py_slice_to. destruct (Z.leb_spec 0 limit); [lia | reflexivity].
Qed.

(* ================================================================== *)
(** * Further properties of the code *)

(** ** Levels and XP *)

Lemma get_level_spec (x : Z) :
  get_level x = (level_count x, snd (nth (pred (level_count x)) LEVELS (0, "🌱 Seedling"))).
Proof.
  unfold get_level, level_count, LEVELS. cbn [get_level_loop List.filter fst snd].
  destruct (Z.leb_spec 0 x); destruct (Z.leb_spec 50 x); destruct (Z.leb_spec 150 x);
  destruct (Z.leb_spec 350 x); destruct (Z.leb_spec 600 x); destruct (Z.leb_spec 1000 x);
  destruct (Z.leb_spec 2000 x); destruct (Z.leb_spec 5000 x);
  try lia; reflexivity.
Qed.

(** get_level: the level is the number of LEVELS thresholds at or below xp, and the title is the name of the last threshold reached (the first title when none is). *)
Theorem get_level_thresholds (x : Z) :
  get_level x = (level_count x, snd (nth (pred (level_count x)) LEVELS (0, "🌱 Seedling"))).
Proof. exact (get_level_spec x). Qed.

Lemma filter_length_mono {A} (f g : A -> bool) (l : list A) :
  (forall a, f a = true -> g a = true) ->
  (List.length (List.filter f l) <= List.length (List.filter g l))%nat.
Proof.
  intros Hfg. induction l as [| a l IH]; simpl; [lia |].
  destruct (f a) eqn:Hf; [rewrite (Hfg a Hf); simpl; lia |].
  destruct (g a); simpl; lia.
Qed.

(** get_level: more XP never gives a lower level, and the level never exceeds 8. *)
Theorem get_level_monotone (x1 x2 : Z) :
  x1 <= x2 -> (fst (get_level x1) <= fst (get_level x2) <= 8)%nat.
Proof.
  intros H. rewrite !get_level_spec. cbn [fst]. split.
  - apply filter_length_mono. intros [t n] Ht. cbn [fst] in *. apply Z.leb_le in Ht. apply Z.leb_le. lia.
  - unfold level_count. etransitivity; [apply List.filter_length_le |]. simpl. lia.
Qed.

(** add_xp keeps, over the whole XP map, the invariant that a user with a recorded last action has a streak of at least 1; the user ends with a streak of at least 1 and last action today, gains exactly amount XP or amount + 50, and no other user entry changes. *)
Theorem add_xp_invariant (st : gmap Z xp_rec) (uid today amount : Z) :
  map_Forall (fun _ u => streak_ok u) st ->
  let '(st', u') := add_xp st uid today amount in
  let u := default xp_default (st !! uid) in
  map_Forall (fun _ u => streak_ok u) st' /\
  st' !! uid = Some u' /\ 1 <= streak u' /\ last_action u' = Some today /\
  (xp u' = xp u + amount \/ xp u' = xp u + amount + 50) /\
  (forall uid', uid' <> uid -> st' !! uid' = st !! uid').
Proof.
  intros Hinv. unfold add_xp. cbn zeta.
  set (u := default xp_default (st !! uid)).
  assert (Hu : streak_ok u).
  { unfold u. destruct (st !! uid) as [v |] eqn:Hv; simpl.
    - exact (Hinv uid v Hv).
    - unfold streak_ok. simpl. congruence. }
  assert (Hs : 1 <= streak (add_xp_rec today amount u)).
  { unfold add_xp_rec. cbn [streak].
    destruct (last_action u) as [ld |] eqn:Hl; [| lia].
    assert (1 <= streak u) by (apply Hu; congruence).
    destruct (today - ld =? 1); [lia |]. destruct (today - ld >? 1); lia. }
  split; [| split; [| split; [| split; [| split]]]].
  - apply map_Forall_insert_2; [intros _; exact Hs | exact Hinv].
  - apply lookup_insert_eq.
  - exact Hs.
  - reflexivity.
  - unfold add_xp_rec. cbn [xp]. destruct (_ && _); [right | left]; reflexivity.
  - intros uid' Hne. apply lookup_insert_ne. congruence.
Qed.

(** ** Decorators and handler state *)

Lemma award_history (s : bot_state) (uid today amount : Z) :
  request_history (fst (award s uid today amount)) = request_history s.
Proof. unfold award. destruct (add_xp _ _ _ _). reflexivity. Qed.

Ltac award_hist :=
  match goal with H : award ?s ?u ?t ?a = _ |- _ =>
    let Ha := fresh in pose proof (award_history s u t a) as Ha; rewrite H in Ha; exact Ha end.

Lemma handle_management_command_history (s : bot_state) (i : mgmt_intent) (uid : Z) (e : env) :
  request_history (fst (fst (handle_management_command s i uid e))) = request_history s.
Proof.
  unfold handle_management_command.
  repeat (case_match; simplify_eq/=); try reflexivity; try award_hist.
Qed.

Lemma handle_text_history (s : bot_state) (uid : Z) (text : string) (e : env) (ni : intents) :
  request_history (fst (handle_text s uid text e ni)) = request_history s.
Proof.
  unfold handle_text, handle_text_classify.
  destruct (pending_deletes s !! uid); [destruct (in_list _ _); reflexivity |].
  destruct (parse_habit_intent ni text); try reflexivity.
  destruct (negb _).
  - pose proof (handle_management_command_history s (parse_management_intent ni text) uid e) as H.
    destruct (handle_management_command _ _ _ _) as [[s' effs] raised].
    simpl in H. destruct raised; exact H.
  - repeat (case_match; simplify_eq/=); try reflexivity; try award_hist.
Qed.

Lemma replay_queued_history (s : bot_state) (uid : Z) (e : env) (queued : list string) :
  request_history (fst (replay_queued s uid e queued)) = request_history s.
Proof.
  revert s. induction queued as [| qt rest IH]; intros s; [reflexivity |].
  cbn [replay_queued]. repeat case_match; simplify_eq/=;
  match goal with H : replay_queued ?s1 _ _ _ = (?s2, _) |- _ =>
    let Hi := fresh in pose proof (IH s1) as Hi; rewrite H in Hi; simpl in Hi; rewrite Hi end;
  try reflexivity; try award_hist.
Qed.

Lemma focus_complete_history (s : bot_state) (uid : Z) (text : string) (e : env) :
  request_history (fst (focus_complete s uid text e)) = request_history s.
Proof.
  unfold focus_complete. destruct (in_list _ _); [| reflexivity].
  destruct (focus_sessions s !! uid) as [sess |]; [| reflexivity].
  set (s1 := set_focus _ _ _ s).
  pose proof (award_history s1 uid (env_today e) XP_FOCUS_COMPLETED) as Ha.
  destruct (award s1 uid (env_today e) XP_FOCUS_COMPLETED) as [s2 u2].
  pose proof (replay_queued_history s2 uid e (default [] (focus_pending_tasks s !! uid))) as Hr.
  destruct (replay_queued _ _ _ _) as [s3 effs]. simpl in *. congruence.
Qed.

(** rate_limited: if every stored request history holds at most MAX_REQUESTS_PER_WINDOW entries before a text message, the same holds after it. *)
Theorem dispatch_text_rate_window_bound (s : bot_state) (uid : Z) (text : string)
    (e : env) (ni : intents) :
  map_Forall (fun _ h => (List.length h <= MAX_REQUESTS_PER_WINDOW)%nat) (request_history s) ->
  map_Forall (fun _ h => (List.length h <= MAX_REQUESTS_PER_WINDOW)%nat)
             (request_history (fst (dispatch_text s uid text e ni))).
Proof.
  intros Hinv. unfold dispatch_text.
  destruct (focus_conv s !! uid) as [[|] |];
    [| rewrite focus_complete_history; exact Hinv |];
  unfold secure; (destruct (authorized _ _); [| exact Hinv]);
  unfold rate_limited;
  set (hist := List.filter _ _);
  (destruct (Nat.leb_spec MAX_REQUESTS_PER_WINDOW (List.length hist)) as [Hle | Hlt]);
  [ cbn [fst request_history set_history]; apply map_Forall_insert_2; [| exact Hinv];
    unfold hist; etransitivity; [apply List.filter_length_le |];
    destruct (request_history s !! uid) as [h |] eqn:Hh; [exact (Hinv uid h Hh) | simpl; lia]
  | rewrite handle_text_history; cbn [request_history set_history];
    apply map_Forall_insert_2; [| exact Hinv]; rewrite length_app; simpl; lia
  | cbn [fst request_history set_history]; apply map_Forall_insert_2; [| exact Hinv];
    unfold hist; etransitivity; [apply List.filter_length_le |];
    destruct (request_history s !! uid) as [h |] eqn:Hh; [exact (Hinv uid h Hh) | simpl; lia]
  | rewrite handle_text_history; cbn [request_history set_history];
    apply map_Forall_insert_2; [| exact Hinv]; rewrite length_app; simpl; lia ].
Qed.

(** rate_limited: an authorized user outside focus mode with MAX_REQUESTS_PER_WINDOW requests in the last minute gets only the too-many-requests reply; the handler does not run and only the pruned history is stored. *)
Theorem dispatch_text_rate_rejected (s : bot_state) (uid : Z) (text : string)
    (e : env) (ni : intents) :
  focus_conv s !! uid <> Some FOCUS_ACTIVE ->
  authorized (env_allowed e) (Some uid) = true ->
  (MAX_REQUESTS_PER_WINDOW <= List.length (recent_requests s uid (env_now e)))%nat ->
  dispatch_text s uid text e ni =
    (set_history (<[uid := recent_requests s uid (env_now e)]> (request_history s)) s,
     [EReply RTooMany]).
Proof.
  intros Hf Ha Hn. unfold dispatch_text.
  assert (Hs : secure (fun s' => handle_text s' uid text e ni) s uid e =
    (set_history (<[uid := recent_requests s uid (env_now e)]> (request_history s)) s,
     [EReply RTooMany])).
  { unfold secure, rate_limited. rewrite Ha. unfold recent_requests in *.
    apply Nat.leb_le in Hn. rewrite Hn. reflexivity. }
  destruct (focus_conv s !! uid) as [[|] |]; [exact Hs | congruence | exact Hs].
Qed.

(** authorized_only: a text message from a user the allow-list rejects, outside focus mode, changes no state and has no effect; it is not even counted by the rate limiter. *)
Theorem dispatch_text_unauthorized (s : bot_state) (uid : Z) (text : string)
    (e : env) (ni : intents) :
  focus_conv s !! uid <> Some FOCUS_ACTIVE ->
  authorized (env_allowed e) (Some uid) = false ->
  dispatch_text s uid text e ni = (s, []).
Proof.
  intros Hf Ha. unfold dispatch_text, secure. rewrite Ha.
  destruct (focus_conv s !! uid) as [[|] |]; [reflexivity | congruence | reflexivity].
Qed.

(** ** Focus mode *)

Lemma dispatch_texts_queue_aux (s : bot_state) (uid : Z) (texts : list string)
    (e : env) (ni : intents) :
  focus_conv s !! uid = Some FOCUS_ACTIVE ->
  Forall (fun t => in_list (py_lower t) completion_words = false) texts ->
  let '(s', effs) := dispatch_texts s uid texts e ni in
  default [] (focus_pending_tasks s' !! uid) = app (default [] (focus_pending_tasks s !! uid)) texts /\
  (forall u, u <> uid -> focus_pending_tasks s' !! u = focus_pending_tasks s !! u) /\
  focus_conv s' = focus_conv s /\ focus_sessions s' = focus_sessions s /\
  user_xp s' = user_xp s /\ pending_deletes s' = pending_deletes s /\
  request_history s' = request_history s /\
  no_store_write effs /\ categorized_texts effs = [].
Proof.
  revert s. induction texts as [| t rest IH]; intros s Hc Ht.
  - simpl. rewrite app_nil_r. repeat split; auto. constructor.
  - inversion Ht as [| ? ? Ht1 Hrest]; subst.
    cbn [dispatch_texts]. unfold dispatch_text. rewrite Hc.
    unfold focus_complete. rewrite Ht1.
    set (q := app (default [] (focus_pending_tasks s !! uid)) [t]).
    set (s1 := set_focus (focus_sessions s) (<[uid := q]> (focus_pending_tasks s)) (focus_conv s) s).
    specialize (IH s1 Hc Hrest).
    destruct (dispatch_texts s1 uid rest e ni) as [s2 effs2].
    destruct IH as (Hq & Ho & Hconv & Hsess & Hxp & Hpd & Hrh & Hw & Hcat).
    cbn in Hq, Ho, Hconv, Hsess, Hxp, Hpd, Hrh.
    rewrite lookup_insert_eq in Hq. cbn in Hq.
    repeat split.
    + rewrite Hq. unfold q. rewrite <- app_assoc. reflexivity.
    + intros u Hu. rewrite Ho by exact Hu. apply lookup_insert_ne. congruence.
    + exact Hconv.
    + exact Hsess.
    + exact Hxp.
    + exact Hpd.
    + exact Hrh.
    + constructor; [reflexivity | exact Hw].
    + exact Hcat.
Qed.

(** focus_complete: in FOCUS_ACTIVE, a sequence of texts that are not completion words is appended to the queue in order; the conversation stays active, no XP is awarded, nothing is classified and nothing is written to the store. *)
Theorem focus_mode_queues_texts (s : bot_state) (uid : Z) (texts : list string)
    (e : env) (ni : intents) :
  focus_conv s !! uid = Some FOCUS_ACTIVE ->
  Forall (fun t => in_list (py_lower t) completion_words = false) texts ->
  let '(s', effs) := dispatch_texts s uid texts e ni in
  default [] (focus_pending_tasks s' !! uid) = app (default [] (focus_pending_tasks s !! uid)) texts /\
  focus_conv s' !! uid = Some FOCUS_ACTIVE /\ user_xp s' = user_xp s /\
  no_store_write effs /\ categorized_texts effs = [].
Proof.
  intros Hc Ht. pose proof (dispatch_texts_queue_aux s uid texts e ni Hc Ht) as H.
  destruct (dispatch_texts s uid texts e ni) as [s' effs].
  destruct H as (Hq & _ & Hconv & _ & Hxp & _ & _ & Hw & Hcat).
  repeat split; auto. rewrite Hconv. exact Hc.
Qed.

(** focus_cancel after queued texts: it reports exactly the number of queued texts as discarded, clears the session, the queue and the conversation state, and the texts were never classified or written. *)
Theorem focus_cancel_discards_queue (s : bot_state) (uid : Z) (texts : list string)
    (e : env) (ni : intents) :
  focus_conv s !! uid = Some FOCUS_ACTIVE ->
  Forall (fun t => in_list (py_lower t) completion_words = false) texts ->
  let '(s1, effs) := dispatch_texts s uid texts e ni in
  let '(s2, discarded) := focus_cancel s1 uid in
  discarded = (List.length (default [] (focus_pending_tasks s !! uid)) + List.length texts)%nat /\
  focus_sessions s2 !! uid = None /\ focus_pending_tasks s2 !! uid = None /\
  focus_conv s2 !! uid = None /\ no_store_write effs /\ categorized_texts effs = [] /\
  user_xp s2 = user_xp s.
Proof.
  intros Hc Ht. pose proof (dispatch_texts_queue_aux s uid texts e ni Hc Ht) as H.
  destruct (dispatch_texts s uid texts e ni) as [s1 effs].
  destruct H as (Hq & _ & _ & _ & Hxp & _ & _ & Hw & Hcat).
  unfold focus_cancel. cbn.
  rewrite Hq, length_app, !lookup_delete_eq.
  repeat split; auto.
Qed.

Lemma categorized_texts_app (l1 l2 : list effect) :
  categorized_texts (app l1 l2) = app (categorized_texts l1) (categorized_texts l2).
Proof. induction l1 as [| [] l1 IH]; simpl; try rewrite IH; reflexivity. Qed.

Lemma replay_queued_spec (s : bot_state) (uid : Z) (e : env) (queued : list string) :
  let '(s', effs) := replay_queued s uid e queued in
  categorized_texts effs = queued /\
  focus_sessions s' = focus_sessions s /\ focus_pending_tasks s' = focus_pending_tasks s /\
  focus_conv s' = focus_conv s.
Proof.
  revert s. induction queued as [| qt rest IH]; intros s; [repeat split |].
  cbn [replay_queued].
  destruct (match categorize_message (env_key_set e) qt false false (env_categorize e qt) with
            | CatDict (Some _) (Some _) (Some _) (Some title) (Some _) _ =>
              if env_add_ok e title then
                let '(s', _) := award s uid (env_today e) XP_TASK_ADDED in
                (s', [ECategorize qt; EAddLifeArea title; EReply (RQueuedAdded title)])
              else (s, [ECategorize qt; EAddLifeArea title])
            | _ => (s, [ECategorize qt; EReply (RQueuedFailed (take 30 qt))])
            end) as [s1 effs1] eqn:Hm.
  assert (Hs1 : (exists r, effs1 = ECategorize qt :: r /\ categorized_texts r = []) /\
                focus_sessions s1 = focus_sessions s /\ focus_pending_tasks s1 = focus_pending_tasks s /\
                focus_conv s1 = focus_conv s).
  { revert Hm. unfold award, add_xp. repeat case_match; intros Hm; simplify_eq/=;
    repeat split; eexists; split; reflexivity. }
  destruct Hs1 as ((r & -> & Hr) & Ha & Hb & Hc).
  specialize (IH s1). destruct (replay_queued s1 uid e rest) as [s2 effs2].
  destruct IH as (Hcat & Ha' & Hb' & Hc').
  repeat split; try congruence.
  rewrite categorized_texts_app. simpl. rewrite Hr, Hcat. reflexivity.
  
Qed.

(** focus_complete with a completion word and a session: the first effect marks the focused page Done, every queued text is classified exactly once in queue order, and the session, queue and conversation state of the user are cleared. *)
Theorem focus_complete_replays_queue (s : bot_state) (uid : Z) (text : string) (e : env)
    (sess : focus_session) :
  in_list (py_lower text) completion_words = true ->
  focus_sessions s !! uid = Some sess ->
  let '(s', effs) := focus_complete s uid text e in
  head effs = Some (EUpdateItem (fs_page_id sess) "status" "Done") /\
  categorized_texts effs = default [] (focus_pending_tasks s !! uid) /\
  focus_sessions s' !! uid = None /\ focus_pending_tasks s' !! uid = None /\
  focus_conv s' !! uid = None.
Proof.
  intros Hw Hs. unfold focus_complete. rewrite Hw, Hs.
  set (s1 := set_focus _ _ _ s).
  unfold award, add_xp. cbn zeta.
  set (s2 := set_xp _ s1).
  pose proof (replay_queued_spec s2 uid e (default [] (focus_pending_tasks s !! uid))) as H.
  destruct (replay_queued s2 uid e _) as [s3 effs].
  destruct H as (Hcat & Ha & Hb & Hc).
  cbn [head]. split; [reflexivity |].
  rewrite Ha, Hb, Hc. cbn [s2 s1 set_xp set_focus focus_sessions focus_pending_tasks focus_conv].
  rewrite !lookup_delete_eq. repeat split.
  simpl. rewrite categorized_texts_app, Hcat.
  destruct (default [] (focus_pending_tasks s !! uid)); simpl; [reflexivity | rewrite app_nil_r; reflexivity].
Qed.

Lemma high_priority_of_spec (items : list page) (hp : list focus_task) :
  high_priority_of items = Some hp ->
  Forall (fun t => in_list (ft_priority t) ["High"; "Medium"] = true /\
    exists p, In p items /\ page_id p = ft_id t /\ focus_priority p = Some (ft_priority t) /\
              focus_title p = Some (ft_title t)) hp.
Proof.
  revert hp. induction items as [| p rest IH]; intros hp H; cbn [high_priority_of] in H.
  - injection H as <-. constructor.
  - destruct (focus_priority p) as [pr |] eqn:Hpr; [| discriminate].
    destruct (focus_title p) as [t |] eqn:Ht; [| discriminate].
    destruct (high_priority_of rest) as [r |]; [| discriminate].
    specialize (IH r eq_refl).
    assert (IH' : Forall (fun t => in_list (ft_priority t) ["High"; "Medium"] = true /\
      exists p0, In p0 (p :: rest) /\ page_id p0 = ft_id t /\ focus_priority p0 = Some (ft_priority t) /\
                 focus_title p0 = Some (ft_title t)) r).
    { eapply Forall_impl; [exact IH |]. intros x [Hx (p0 & Hin & Hid)]. split; [exact Hx |].
      exists p0. split; [right; exact Hin | exact Hid]. }
    destruct (in_list pr ["High"; "Medium"]) eqn:Hin; injection H as <-; [| exact IH'].
    constructor; [| exact IH']. split; [exact Hin |].
    exists p. split; [left; reflexivity | auto].
Qed.

Lemma high_priority_of_None (items : list page) :
  high_priority_of items = None <->
  exists p, In p items /\ (focus_priority p = None \/ focus_title p = None).
Proof.
  induction items as [| p rest IH]; simpl.
  - split; [discriminate | intros (? & [] & _)].
  - destruct (focus_priority p) as [pr |] eqn:Hpr, (focus_title p) as [t |] eqn:Ht.
    + destruct (high_priority_of rest) as [r |].
      * split; [discriminate |]. intros (q & [<- | Hq] & Hn); [rewrite Hpr, Ht in Hn; destruct Hn; discriminate |].
        assert (Some r = None) by (apply IH; exists q; auto). discriminate.
      * split; [| reflexivity]. intros _. destruct (proj1 IH eq_refl) as (q & Hq & Hn). exists q; auto.
    + split; [intros _; exists p; auto | reflexivity].
    + split; [intros _; exists p; auto | reflexivity].
    + split; [intros _; exists p; auto | reflexivity].
Qed.

(** focus_start: the offered tasks are between 1 and 5, each has priority High or Medium, and each comes from an active item with that id, priority and title. *)
Theorem focus_start_candidates (resp : option (list page)) (tasks : list focus_task) :
  focus_start resp = FSChoose tasks ->
  (1 <= List.length tasks <= 5)%nat /\
  Forall (fun t => in_list (ft_priority t) ["High"; "Medium"] = true /\
    exists p, In p (get_active_items resp) /\ page_id p = ft_id t /\
              focus_priority p = Some (ft_priority t) /\ focus_title p = Some (ft_title t)) tasks.
Proof.
  unfold focus_start. intros H.
  destruct (get_active_items resp) as [| p0 rest] eqn:Ha; [discriminate |].
  destruct (high_priority_of (p0 :: rest)) as [hp |] eqn:Hh; [| discriminate].
  destruct hp as [| t0 hp']; [discriminate |]. injection H as <-.
  split.
  - cbn [List.length firstn]. rewrite List.length_firstn. lia.
  - pose proof (high_priority_of_spec _ _ Hh) as Hs.
    rewrite List.Forall_forall in *. intros x Hx. apply Hs. apply (firstn_In_l 5). exact Hx.
Qed.

(** focus_start raises when any active item has a null Priority select or an empty title list. *)
Theorem focus_start_raises (resp : option (list page)) (p : page) :
  In p (get_active_items resp) ->
  focus_priority p = None \/ focus_title p = None ->
  focus_start resp = FSRaise.
Proof.
  intros Hin Hn. unfold focus_start.
  assert (H : high_priority_of (get_active_items resp) = None)
    by (apply high_priority_of_None; exists p; auto).
  destruct (get_active_items resp) as [| p0 rest]; [destruct Hin |]. rewrite H. reflexivity.
Qed.

(** ** Habits and store writes *)

(** get_habit_by_name: for an ASCII query and habits whose titles are
    ASCII (where [str.lower] is the ASCII lower-casing [py_lower]), it
    returns the first habit whose lowercased title contains the lowercased
    query or is contained in it, and None exactly when no habit matches. *)
Theorem get_habit_by_name_first (habits : list page) (q : string) :
  ascii_str q = true ->
  Forall (fun h => forall t, habit_title h = Some t -> ascii_str t = true) habits ->
  match get_habit_by_name habits q with
  | Some h => exists pre post, habits = app pre (h :: post) /\
      habit_matches (py_lower q) h = true /\
      Forall (fun h' => habit_matches (py_lower q) h' = false) pre
  | None => Forall (fun h => habit_matches (py_lower q) h = false) habits
  end.
Proof.
  intros _ _. unfold get_habit_by_name. generalize (py_lower q) as nl. intros nl.
  induction habits as [| h rest IH]; simpl; [constructor |].
  destruct (habit_matches nl h) eqn:Hm.
  - exists [], rest. split; [reflexivity | split; [exact Hm | constructor]].
  - destruct (get_habit_by_name_loop nl rest) as [h' |].
    + destruct IH as (pre & post & -> & Hm' & Hpre).
      exists (h :: pre), post. split; [reflexivity | split; [exact Hm' | constructor; assumption]].
    + constructor; assumption.
Qed.

Lemma get_habit_by_name_first_witness :
  ascii_str "GYM" = true /\
  Forall (fun h => forall t, habit_title h = Some t -> ascii_str t = true) [gym_page] /\
  match get_habit_by_name [gym_page] "GYM" with
  | Some h => exists pre post, [gym_page] = app pre (h :: post) /\
      habit_matches (py_lower "GYM") h = true /\
      Forall (fun h' => habit_matches (py_lower "GYM") h' = false) pre
  | None => Forall (fun h => habit_matches (py_lower "GYM") h = false) [gym_page]
  end.
Proof.
  assert (Ha : ascii_str "GYM" = true) by reflexivity.
  assert (Hh : Forall (fun h => forall t, habit_title h = Some t -> ascii_str t = true) [gym_page]).
  { constructor; [| constructor]. intros t Ht. vm_compute in Ht. injection Ht as <-. reflexivity. }
  split; [exact Ha | split; [exact Hh |]].
  exact (get_habit_by_name_first [gym_page] "GYM" Ha Hh).
Defined.

Lemma contains_empty (s : string) : contains s "" = true.
Proof. destruct s; reflexivity. Qed.

(** get_habit_by_name: a first habit with no title Name property matches every query (its title is the empty string). *)
Theorem get_habit_by_name_nameless (h : page) (rest : list page) (q : string) :
  (forall segs, props h !! "Name" <> Some (PTitle segs)) ->
  get_habit_by_name (h :: rest) q = Some h.
Proof.
  intros Hn. unfold get_habit_by_name. simpl. unfold habit_matches, habit_title_lower, habit_title.
  destruct (props h !! "Name") as [[segs | | |] |] eqn:Hh;
    try (exfalso; exact (Hn segs eq_refl));
    cbn [option_map]; change (py_lower "") with "";
    rewrite contains_empty, orb_true_r; reflexivity.
Qed.

Lemma update_properties_status (u : item_updates) :
  update_properties u !! "Status" = option_map (fun v => PSelect (Some v)) (up_status u).
Proof.
  unfold update_properties.
  destruct (up_priority u), (up_status u), (up_category u); simpl;
  repeat first [ rewrite lookup_insert_eq | rewrite lookup_insert_ne by discriminate
               | rewrite lookup_singleton_eq | rewrite lookup_singleton_ne by discriminate
               | rewrite lookup_empty ]; reflexivity.
Qed.

Lemma pages_update_ids (pid : string) (ps : gmap string prop_val) (db : list page) :
  map page_id (pages_update pid ps db) = map page_id db.
Proof.
  induction db as [| p db IH]; simpl; [reflexivity |].
  destruct (String.eqb (page_id p) pid); simpl; rewrite IH; reflexivity.
Qed.

(** update_item with a status update: the item afterwards is active exactly when the new status is not done, completed or archived (case-insensitively), the ids of the database stay the same, and the other pages are unchanged. *)
Theorem update_item_status (pid v : string) (u : item_updates) (db : list page) :
  up_status u = Some v ->
  let '(db', r) := update_item true pid u db in
  r = Some pid /\ map page_id db' = map page_id db /\
  (forall p, In p db' -> page_id p = pid ->
     is_active_page p = negb (in_list (py_lower v) inactive_statuses)) /\
  List.filter (fun p => negb (String.eqb (page_id p) pid)) db' =
  List.filter (fun p => negb (String.eqb (page_id p) pid)) db.
Proof.
  intros Hv. unfold update_item. split; [reflexivity | split; [apply pages_update_ids | split]].
  - intros p Hp Hid. unfold pages_update in Hp. apply in_map_iff in Hp as (p0 & <- & _).
    destruct (String.eqb (page_id p0) pid) eqn:He; [| apply String.eqb_neq in He; congruence].
    unfold is_active_page, status_name. cbn [props].
    rewrite (lookup_union_Some_l _ _ _ (PSelect (Some v))); [reflexivity |].
    rewrite update_properties_status, Hv. reflexivity.
  - induction db as [| p db IH]; [reflexivity |]. cbn [pages_update map].
    destruct (String.eqb (page_id p) pid) eqn:He; cbn [List.filter page_id];
      rewrite He; simpl; [exact IH | f_equal; exact IH].
Qed.




Lemma py_len_take (n : nat) (s : string) : py_len (take n s) = Nat.min n (py_len s).
Proof.
  revert n. induction s as [| c r IH]; intros n; cbn [take]; [destruct n; reflexivity |].
  cbn [py_len]. destruct (is_cont c) eqn:Hc; cbn [py_len]; rewrite ?Hc; [apply IH |].
  destruct n as [| n]; cbn [py_len]; [reflexivity | rewrite Hc, IH; reflexivity].
Qed.

Lemma take_prefix (n : nat) (s : string) : startswith s (take n s) = true.
Proof.
  revert n. induction s as [| c r IH]; intros n; simpl; [reflexivity |].
  destruct (is_cont c); [| destruct n as [| n]]; simpl; try reflexivity;
    destruct (ascii_dec c c); [apply IH | congruence | apply IH | congruence].
Qed.

Lemma take_all (n : nat) (s : string) : (py_len s <= n)%nat -> take n s = s.
Proof.
  revert n. induction s as [| c r IH]; intros n Hle; simpl; [reflexivity |].
  simpl in Hle. destruct (is_cont c); [rewrite IH; [reflexivity | exact Hle] |].
  destruct n as [| n]; [lia | rewrite IH; [reflexivity | lia]].
Qed.

(** add_to_brain_dump stores the first min(2000, len(content)) characters
    (code points) of the content, a prefix of it, equal to it when it has
    at most 2000 characters; for the types the bot passes (Text, Voice,
    Image, PDF) the icon is always the default one. *)
Theorem add_to_brain_dump_content (title content msg_type : string) (file_url : option string) :
  let bd := add_to_brain_dump title content msg_type file_url in
  py_len (bd_content bd) = Nat.min 2000 (py_len content) /\
  startswith content (bd_content bd) = true /\
  (py_len content <= 2000 -> bd_content bd = content)%nat /\
  (In msg_type ["Text"; "Voice"; "Image"; "PDF"] -> bd_icon bd = "📝").
Proof.
  cbn zeta. split; [| split; [| split]].
  4: { intros H. repeat (destruct H as [<- | H]; [reflexivity |]). destruct H. }
  all: unfold add_to_brain_dump; cbn [bd_content].
  - apply py_len_take.
  - apply take_prefix.
  - apply take_all.
Qed.


(** ** Markdown fences *)

Lemma str_append_cons (c : ascii) (s1 s2 : string) :
  (String c s1 ++ s2)%string = String c (s1 ++ s2)%string.
Proof. reflexivity. Qed.

Lemma str_append_empty (s : string) : (EmptyString ++ s)%string = s.
Proof. reflexivity. Qed.

Lemma str_append_nil_r (s : string) : (s ++ EmptyString)%string = s.
Proof. induction s as [| c s IH]; [reflexivity | rewrite str_append_cons, IH; reflexivity]. Qed.

Lemma str_append_assoc (s1 s2 s3 : string) : (s1 ++ (s2 ++ s3))%string = ((s1 ++ s2) ++ s3)%string.
Proof. induction s1 as [| c s1 IH]; [reflexivity | rewrite !str_append_cons, IH; reflexivity]. Qed.

Lemma split_on_aux_sep (sep : ascii) (s1 s2 : string) (cur : list ascii) :
  split_on_aux sep (s1 ++ String sep s2) cur = app (split_on_aux sep s1 cur) (split_on_aux sep s2 []).
Proof.
  revert cur. induction s1 as [| c s1 IH]; intros cur.
  - rewrite str_append_empty. simpl. destruct (ascii_dec sep sep); [reflexivity | congruence].
  - rewrite str_append_cons. simpl. destruct (ascii_dec c sep); [rewrite IH; reflexivity | apply IH].
Qed.

Lemma split_on_aux_nosep (sep : ascii) (s : string) (cur : list ascii) :
  ~ In sep (list_ascii_of_string s) ->
  split_on_aux sep s cur = [string_of_list_ascii (app (rev cur) (list_ascii_of_string s))].
Proof.
  revert cur. induction s as [| c s IH]; intros cur Hn; simpl.
  - rewrite app_nil_r. reflexivity.
  - destruct (ascii_dec c sep) as [-> | Hne]; [exfalso; apply Hn; left; reflexivity |].
    rewrite IH by (intros H; apply Hn; right; exact H). simpl. rewrite <- app_assoc. reflexivity.
Qed.

Lemma string_of_list_ascii_app (l1 l2 : list ascii) :
  string_of_list_ascii (app l1 l2) = (string_of_list_ascii l1 ++ string_of_list_ascii l2)%string.
Proof. induction l1 as [| c l1 IH]; [reflexivity | simpl; rewrite IH; reflexivity]. Qed.

Lemma list_ascii_of_string_app (s1 s2 : string) :
  list_ascii_of_string (s1 ++ s2) = app (list_ascii_of_string s1) (list_ascii_of_string s2).
Proof. induction s1 as [| c s1 IH]; [reflexivity | rewrite str_append_cons; simpl; rewrite IH; reflexivity]. Qed.

Lemma split_on_aux_not_nil (sep : ascii) (s : string) (cur : list ascii) :
  split_on_aux sep s cur <> [].
Proof.
  revert cur. induction s as [| c s IH]; intros cur; simpl; [discriminate |].
  destruct (ascii_dec c sep); [discriminate | apply IH].
Qed.

Lemma concat_split_on_aux (sep : ascii) (s : string) (cur : list ascii) :
  String.concat (String sep EmptyString) (split_on_aux sep s cur) =
  (string_of_list_ascii (rev cur) ++ s)%string.
Proof.
  revert cur. induction s as [| c s IH]; intros cur; simpl.
  - rewrite str_append_nil_r. reflexivity.
  - destruct (ascii_dec c sep) as [-> | Hne].
    + destruct (split_on_aux sep s []) as [| x xs] eqn:Hs.
      * exfalso. exact (split_on_aux_not_nil sep s [] Hs).
      * specialize (IH []). rewrite Hs in IH. cbn [rev string_of_list_ascii] in IH.
        rewrite str_append_empty in IH.
        change (String.concat (String sep EmptyString) (string_of_list_ascii (rev cur) :: x :: xs))
          with (string_of_list_ascii (rev cur) ++ (String sep EmptyString ++
                String.concat (String sep EmptyString) (x :: xs)))%string.
        rewrite IH. reflexivity.
    + rewrite IH. simpl. rewrite string_of_list_ascii_app. simpl.
      rewrite <- str_append_assoc. reflexivity.
Qed.

Lemma strip_nonspace_ends (c1 c2 : ascii) (mid : string) :
  is_space c1 = false -> is_space c2 = false ->
  strip (String c1 (mid ++ String c2 EmptyString)) = String c1 (mid ++ String c2 EmptyString).
Proof.
  intros H1 H2. unfold strip. cbn [lstrip]. rewrite H1.
  cbn [list_ascii_of_string]. rewrite list_ascii_of_string_app. cbn [list_ascii_of_string].
  rewrite app_comm_cons, rev_app_distr. cbn [rev app string_of_list_ascii lstrip]. rewrite H2.
  change (list_ascii_of_string (String c2 (string_of_list_ascii (rev (list_ascii_of_string mid) ++ [c1]))))
    with (c2 :: list_ascii_of_string (string_of_list_ascii (rev (list_ascii_of_string mid) ++ [c1]))).
  rewrite list_ascii_of_string_of_list_ascii.
  replace (c2 :: (rev (list_ascii_of_string mid) ++ [c1]))
    with (rev (app (c1 :: list_ascii_of_string mid) [c2])) by (rewrite rev_app_distr; reflexivity).
  rewrite rev_involutive. cbn [app string_of_list_ascii].
  rewrite string_of_list_ascii_app, string_of_list_ascii_of_string. reflexivity.
Qed.

(** The fence stripping of parse_management_intent and ai_match_task gives back the body of a reply wrapped as ```lang, newline, body, newline, ``` when lang has no newline. *)
Theorem strip_code_fence_fenced (lang body : string) :
  ~ In "010"%char (list_ascii_of_string lang) ->
  strip_code_fence (fenced lang body) = body.
Proof.
  intros Hl. unfold strip_code_fence.
  assert (Hf : fenced lang body =
    String "`" (("``" ++ lang ++ String "010" (body ++ String "010" "``")) ++ String "`" EmptyString)).
  { unfold fenced. change ("```" ++ ?x)%string with (String "`" ("``" ++ x)). f_equal.
    rewrite <- (str_append_assoc "``"), <- (str_append_assoc lang), (str_append_cons "010"),
      <- (str_append_assoc body). reflexivity. }
  rewrite Hf, strip_nonspace_ends by reflexivity. rewrite <- Hf.
  assert (Hst : startswith (fenced lang body) "```" = true).
  { change (fenced lang body) with
      (String "`" (String "`" (String "`" (lang ++ String "010" (body ++ String "010" "```"))))).
    cbn. destruct (lang ++ String "010" (body ++ String "010" "```"))%string; reflexivity. }
  rewrite Hst. unfold split_on, fenced.
  rewrite str_append_assoc, split_on_aux_sep, split_on_aux_sep.
  rewrite (split_on_aux_nosep _ ("```" ++ lang))
    by (rewrite list_ascii_of_string_app; intros H; apply in_app_or in H as [H | H];
        [simpl in H; intuition discriminate | exact (Hl H)]).
  cbn [rev app]. rewrite string_of_list_ascii_of_string.
  replace (split_on_aux "010" "```" []) with ["```"] by reflexivity.
  unfold last_line. rewrite app_comm_cons, last_last.
  replace (String.eqb (strip "```") "```") with true by reflexivity.
  rewrite removelast_last. cbn [tail].
  rewrite concat_split_on_aux. reflexivity.
Qed.

(** ** Allow-list and text handling *)

Lemma digits_fold_nonneg (l : list ascii) (acc : Z) :
  0 <= acc -> 0 <= fold_left (fun acc c => 10 * acc + Z.of_nat (nat_of_ascii c - 48)) l acc.
Proof. revert acc. induction l as [| c l IH]; intros acc H; simpl; [exact H | apply IH; lia]. Qed.

(** For an ASCII value of ALLOWED_USER_IDS (where [str.isdigit] accepts
    exactly the ASCII digits), the parser only yields non-negative ids:
    entries such as negative ids are dropped. *)
Theorem parse_allowed_ids_nonneg (s : string) :
  ascii_str s = true ->
  Forall (fun uid => 0 <= uid) (parse_allowed_ids s).
Proof.
  intros _. unfold parse_allowed_ids. apply List.Forall_forall. intros z Hz.
  apply in_map_iff in Hz as (x & <- & _). unfold digits_to_Z. apply digits_fold_nonneg. lia.
Qed.

Lemma parse_allowed_ids_nonneg_witness :
  ascii_str "12, -5,7" = true /\ Forall (fun uid => 0 <= uid) (parse_allowed_ids "12, -5,7").
Proof.
  assert (H : ascii_str "12, -5,7" = true) by reflexivity.
  split; [exact H | exact (parse_allowed_ids_nonneg _ H)].
Defined.



(** handle_text on the create path (no pending delete, no habit and no management intent): either an item is created and reported, or the first 100 characters of the text go to the Brain Dump. *)
Theorem handle_text_create_keeps_text (s : bot_state) (uid : Z) (text : string)
    (e : env) (ni : intents) :
  pending_deletes s !! uid = None ->
  parse_habit_intent ni text = HNone ->
  mi_intent (parse_management_intent ni text) = "none" ->
  let effs := snd (handle_text s uid text e ni) in
  (exists title, env_add_ok e title = true /\ In (EAddLifeArea title) effs /\
                 In (EReply (RAdded title)) effs) \/
  In (EBrainDump (take 100 text)) effs.
Proof.
  intros Hp Hh Hm. cbn zeta. unfold handle_text. rewrite Hp.
  unfold handle_text_classify. rewrite Hh, Hm. cbn [String.eqb negb].
  destruct (categorize_message _ _ _ _ _) as [[c|] [t|] [pr|] [ti|] [su|] sa |] eqn:Hc;
    try (right; simpl; tauto).
  destruct (env_add_ok e ti) eqn:Ha.
  - left. exists ti. unfold award, add_xp. simpl. tauto.
  - right. simpl. tauto.
Qed.

Lemma ai_match_task_In (key_set : bool) (tasks : list page) (o : match_outcome) (p : page) :
  ai_match_task key_set tasks o = Some (Some p) -> In p tasks.
Proof.
  unfold ai_match_task. destruct key_set; simpl; [| discriminate].
  destruct tasks as [| t ts]; [discriminate |].
  destruct (existsb prompt_raises (t :: ts)); [discriminate |].
  intros Hs. injection Hs as Hs. revert Hs.
  destruct o as [| status [[tn |] |]]; try discriminate.
  - destruct (negb (status =? 200)); [discriminate |].
    destruct (_ && _); [| discriminate]. intros H. apply list_elem_of_In, list_elem_of_lookup_2 with (i := Z.to_nat (tn - 1)); exact H.
  - destruct (negb (status =? 200)); [discriminate |]. simpl. discriminate.
  - destruct (negb (status =? 200)); discriminate.
Qed.

(** handle_management_command with a delete intent never writes to the store: it only records, at most, a pending delete of an active item for the user, and leaves the rest of the state unchanged. *)
Theorem handle_management_command_delete_staged (s : bot_state) (intent : mgmt_intent)
    (uid : Z) (e : env) :
  mi_intent intent = "delete" ->
  let '(s', effs, _) := handle_management_command s intent uid e in
  no_store_write effs /\
  user_xp s' = user_xp s /\ focus_sessions s' = focus_sessions s /\
  focus_pending_tasks s' = focus_pending_tasks s /\ request_history s' = request_history s /\
  (pending_deletes s' = pending_deletes s \/
   exists p, In p (get_active_items (env_active e)) /\
             pending_deletes s' = <[uid := page_id p]> (pending_deletes s)).
Proof.
  intros Hd. unfold handle_management_command. rewrite Hd. cbn [String.eqb].
  destruct (get_active_items (env_active e)) as [| a rest] eqn:Hact.
  - repeat split; auto. repeat constructor.
  - destruct (ai_match_task (env_key_set e) (a :: rest) (env_match e)) as [[item |] |] eqn:Hm;
      [| repeat split; auto; repeat constructor |].
    + destruct (title_strict item) as [title |].
      * cbn [String.eqb]. repeat split; try reflexivity.
        -- repeat constructor.
        -- right. exists item. split; [eapply ai_match_task_In; exact Hm | reflexivity].
      * repeat split; auto. repeat constructor.
    + repeat split; auto. repeat constructor.
Qed.

(** ** Witnesses of the hypotheses of the properties above *)

Lemma get_level_monotone_witness :
  40 <= 60 /\ (fst (get_level 40) <= fst (get_level 60) <= 8)%nat.
Proof. split; [lia | apply (get_level_monotone 40 60); lia]. Defined.

Lemma add_xp_invariant_witness :
  map_Forall (fun _ u => streak_ok u) ({[ 1 := mk_xp 10 (Some 19999) 6 ]} : gmap Z xp_rec) /\
  let '(st', u') := add_xp {[ 1 := mk_xp 10 (Some 19999) 6 ]} 1 20000 5 in
  let u := default xp_default (({[ 1 := mk_xp 10 (Some 19999) 6 ]} : gmap Z xp_rec) !! 1) in
  map_Forall (fun _ u => streak_ok u) st' /\
  st' !! 1 = Some u' /\ 1 <= streak u' /\ last_action u' = Some 20000 /\
  (xp u' = xp u + 5 \/ xp u' = xp u + 5 + 50) /\
  (forall uid', uid' <> 1 -> st' !! uid' = ({[ 1 := mk_xp 10 (Some 19999) 6 ]} : gmap Z xp_rec) !! uid').
Proof.
  assert (H : map_Forall (fun _ u => streak_ok u) ({[ 1 := mk_xp 10 (Some 19999) 6 ]} : gmap Z xp_rec)).
  { apply map_Forall_singleton. unfold streak_ok. simpl. lia. }
  split; [exact H | exact (add_xp_invariant _ 1 20000 5 H)].
Defined.

Lemma dispatch_text_rate_window_bound_witness :
  map_Forall (fun _ h => (List.length h <= MAX_REQUESTS_PER_WINDOW)%nat) (request_history busy_state) /\
  map_Forall (fun _ h => (List.length h <= MAX_REQUESTS_PER_WINDOW)%nat)
    (request_history (fst (dispatch_text busy_state 1 "hi" (sample_env [] MRaise) sample_intents))).
Proof.
  assert (H : map_Forall (fun _ h => (List.length h <= MAX_REQUESTS_PER_WINDOW)%nat) (request_history busy_state)).
  { apply map_Forall_singleton. vm_compute. lia. }
  split; [exact H | exact (dispatch_text_rate_window_bound busy_state 1 "hi" _ _ H)].
Defined.

Lemma dispatch_text_rate_rejected_witness :
  (MAX_REQUESTS_PER_WINDOW <= List.length (recent_requests busy_state 1 (env_now (sample_env [] MRaise))))%nat /\
  dispatch_text busy_state 1 "hi" (sample_env [] MRaise) sample_intents =
    (set_history (<[1 := recent_requests busy_state 1 (env_now (sample_env [] MRaise))]>
                    (request_history busy_state)) busy_state, [EReply RTooMany]).
Proof.
  assert (H : (MAX_REQUESTS_PER_WINDOW <= List.length (recent_requests busy_state 1 (env_now (sample_env [] MRaise))))%nat)
    by (vm_compute; lia).
  split; [exact H |].
  apply (dispatch_text_rate_rejected busy_state 1 "hi" (sample_env [] MRaise) sample_intents);
    [vm_compute; discriminate | reflexivity | exact H].
Defined.

Lemma dispatch_text_unauthorized_witness :
  authorized (env_allowed allow_two_env) (Some 1) = false /\
  dispatch_text empty_state 1 "hi" allow_two_env sample_intents = (empty_state, []).
Proof.
  split; [reflexivity |].
  apply dispatch_text_unauthorized; [vm_compute; discriminate | reflexivity].
Defined.

Lemma focus_mode_queues_texts_witness :
  focus_conv focus_state !! 1 = Some FOCUS_ACTIVE /\
  let '(s', effs) := dispatch_texts focus_state 1 ["buy milk"; "call mom"] (sample_env [] MRaise) sample_intents in
  default [] (focus_pending_tasks s' !! 1) = app (default [] (focus_pending_tasks focus_state !! 1)) ["buy milk"; "call mom"] /\
  focus_conv s' !! 1 = Some FOCUS_ACTIVE /\ user_xp s' = user_xp focus_state /\
  no_store_write effs /\ categorized_texts effs = [].
Proof.
  split; [reflexivity |].
  apply focus_mode_queues_texts; [reflexivity | repeat constructor].
Defined.

Lemma focus_cancel_discards_queue_witness :
  focus_conv focus_state !! 1 = Some FOCUS_ACTIVE /\
  let '(s1, effs) := dispatch_texts focus_state 1 ["buy milk"] (sample_env [] MRaise) sample_intents in
  let '(s2, discarded) := focus_cancel s1 1 in
  discarded = (List.length (default [] (focus_pending_tasks focus_state !! 1%Z)) + List.length ["buy milk"])%nat /\
  focus_sessions s2 !! 1 = None /\ focus_pending_tasks s2 !! 1 = None /\
  focus_conv s2 !! 1 = None /\ no_store_write effs /\ categorized_texts effs = [] /\
  user_xp s2 = user_xp focus_state.
Proof.
  split; [reflexivity |].
  apply focus_cancel_discards_queue; [reflexivity | repeat constructor].
Defined.

Lemma focus_complete_replays_queue_witness :
  in_list (py_lower "Done") completion_words = true /\
  focus_sessions focus_queued_state !! 1 = Some (mk_focus "Write report" "r1") /\
  let '(s', effs) := focus_complete focus_queued_state 1 "Done" (sample_env [] MRaise) in
  head effs = Some (EUpdateItem "r1" "status" "Done") /\
  categorized_texts effs = default [] (focus_pending_tasks focus_queued_state !! 1) /\
  focus_sessions s' !! 1 = None /\ focus_pending_tasks s' !! 1 = None /\
  focus_conv s' !! 1 = None.
Proof.
  split; [reflexivity | split; [reflexivity |]].
  apply (focus_complete_replays_queue focus_queued_state 1 "Done" (sample_env [] MRaise)
           (mk_focus "Write report" "r1"));
    reflexivity.
Defined.

Lemma focus_start_candidates_witness :
  focus_start (Some [high_task_page]) = FSChoose [mk_focus_task "t1" "Plan" "High"] /\
  (1 <= List.length [mk_focus_task "t1" "Plan" "High"] <= 5)%nat /\
  Forall (fun t => in_list (ft_priority t) ["High"; "Medium"] = true /\
    exists p, In p (get_active_items (Some [high_task_page])) /\ page_id p = ft_id t /\
              focus_priority p = Some (ft_priority t) /\ focus_title p = Some (ft_title t))
    [mk_focus_task "t1" "Plan" "High"].
Proof.
  assert (H : focus_start (Some [high_task_page]) = FSChoose [mk_focus_task "t1" "Plan" "High"])
    by reflexivity.
  split; [exact H | exact (focus_start_candidates _ _ H)].
Defined.

Lemma focus_start_raises_witness :
  In null_priority_page (get_active_items (Some [high_task_page; null_priority_page])) /\
  focus_start (Some [high_task_page; null_priority_page]) = FSRaise.
Proof.
  assert (H : In null_priority_page (get_active_items (Some [high_task_page; null_priority_page])))
    by (vm_compute; right; left; reflexivity).
  split; [exact H |].
  apply (focus_start_raises _ null_priority_page H). left. reflexivity.
Defined.

Lemma get_habit_by_name_nameless_witness :
  (forall segs, props (mk_page "h" ∅) !! "Name" <> Some (PTitle segs)) /\
  get_habit_by_name [mk_page "h" ∅; gym_page] "gym" = Some (mk_page "h" ∅).
Proof.
  assert (H : forall segs, props (mk_page "h" ∅) !! "Name" <> Some (PTitle segs))
    by (intros segs; simpl; rewrite lookup_empty; discriminate).
  split; [exact H | exact (get_habit_by_name_nameless _ [gym_page] "gym" H)].
Defined.

Lemma update_item_status_witness :
  up_status (mk_updates None (Some "Done") None) = Some "Done" /\
  let '(db', r) := update_item true "gym" (mk_updates None (Some "Done") None) [gym_page] in
  r = Some "gym" /\ map page_id db' = map page_id [gym_page] /\
  (forall p, In p db' -> page_id p = "gym" ->
     is_active_page p = negb (in_list (py_lower "Done") inactive_statuses)) /\
  List.filter (fun p => negb (String.eqb (page_id p) "gym")) db' =
  List.filter (fun p => negb (String.eqb (page_id p) "gym")) [gym_page].
Proof.
  split; [reflexivity |]. apply update_item_status. reflexivity.
Defined.


Lemma strip_code_fence_fenced_witness :
  ~ In "010"%char (list_ascii_of_string "json") /\
  strip_code_fence (fenced "json" "{}") = "{}".
Proof.
  assert (H : ~ In "010"%char (list_ascii_of_string "json"))
    by (simpl; intros [H | [H | [H | [H | []]]]]; discriminate).
  split; [exact H | exact (strip_code_fence_fenced "json" "{}" H)].
Defined.


Lemma handle_text_create_keeps_text_witness :
  pending_deletes empty_state !! 1 = None /\
  let effs := snd (handle_text empty_state 1 "buy milk" add_fails_env sample_intents) in
  (exists title, env_add_ok add_fails_env title = true /\ In (EAddLifeArea title) effs /\
                 In (EReply (RAdded title)) effs) \/
  In (EBrainDump (take 100 "buy milk")) effs.
Proof.
  split; [reflexivity |]. apply handle_text_create_keeps_text; reflexivity.
Defined.

Lemma handle_management_command_delete_staged_witness :
  mi_intent (delete_intent "gym") = "delete" /\
  let '(s', effs, _) := handle_management_command empty_state (delete_intent "gym") 1
                          (sample_env [gym_page] (MHttp 200 (Some (Some 1)))) in
  no_store_write effs /\
  user_xp s' = user_xp empty_state /\ focus_sessions s' = focus_sessions empty_state /\
  focus_pending_tasks s' = focus_pending_tasks empty_state /\
  request_history s' = request_history empty_state /\
  (pending_deletes s' = pending_deletes empty_state \/
   exists p, In p (get_active_items (env_active (sample_env [gym_page] (MHttp 200 (Some (Some 1)))))) /\
             pending_deletes s' = <[1 := page_id p]> (pending_deletes empty_state)).
Proof.
  split; [reflexivity |]. apply handle_management_command_delete_staged. reflexivity.
Defined.
